(** * Hawaii climate API ([src/app.py]): shallow embedding and properties

    The program is a Flask application with six routes over a SQLite store
    holding two tables, [station] and [measurement].  Every handler opens a
    SQLAlchemy session, runs one or more read-only queries, closes the session
    and shapes the rows into a JSON value.

    The embedding follows the source line by line:
    - tables are lists of rows, in the order in which the store returns them;
    - TEXT values are [string]s compared bytewise, as SQLite's default
      collation does;
    - the FLOAT columns [prcp] and [tobs] are exact rationals ([Q]); what
      is proved of the rounded average is stated where this agrees with
      double arithmetic;
    - Python exceptions and the set of open sessions are threaded through a
      small state-and-exception monad over a [World];
    - the order in which the store returns groups of equal count is left to
      the store: it is a parameter of the [tobs] handler. *)

From Stdlib Require Import List String Ascii Bool Arith ZArith QArith Qround.
From Stdlib Require Import Qabs.
From Stdlib Require Import Lia Lqa Permutation Sorted.
Import ListNotations.

Open Scope string_scope.
Open Scope list_scope.

(* ------------------------------------------------------------------ *)
(** ** Python exceptions and outcomes *)

Inductive exn : Type :=
| TypeError
| ValueError
| IndexError
| OverflowError.

Inductive outcome (A : Type) : Type :=
| Return (a : A)
| Raise (e : exn).
Arguments Return {A} a.
Arguments Raise {A} e.

(* ------------------------------------------------------------------ *)
(** ** TEXT values of the store *)

Module Text.

(** SQLite compares TEXT with the BINARY collation: byte by byte, a proper
    prefix being smaller.  [Measurement.date >= x] is [ge (date m) x]. *)
Definition le (a b : string) : bool := String.leb a b.
Definition ge (a b : string) : bool := String.leb b a.

(** [max] aggregate over TEXT: the greatest value, NULL (None) on no row. *)
Definition max2 (a b : string) : string := if le a b then b else a.

Fixpoint maximum (l : list string) : option string :=
  match l with
  | [] => None
  | x :: r =>
      match maximum r with
      | None => Some x
      | Some y => Some (max2 x y)
      end
  end.

End Text.

(* ------------------------------------------------------------------ *)
(** ** The part of Python's [datetime] the handlers use *)

Module Datetime.

Local Open Scope Z_scope.

(** A [datetime] value.  The only format the handlers parse is
    [%Y-%m-%d], which has no time directive: the time of day is always
    midnight, so only the calendar date is carried. *)
Record datetime : Type := mk_datetime { year : Z; month : Z; day : Z }.

Definition is_leap (y : Z) : bool :=
  (y mod 4 =? 0) && (negb (y mod 100 =? 0) || (y mod 400 =? 0)).

Definition days_before_year (y : Z) : Z :=
  let p := y - 1 in p * 365 + p / 4 - p / 100 + p / 400.

Definition DAYS_IN_MONTH (m : Z) : Z :=
  match m with
  | 1 => 31 | 2 => 28 | 3 => 31 | 4 => 30 | 5 => 31 | 6 => 30
  | 7 => 31 | 8 => 31 | 9 => 30 | 10 => 31 | 11 => 30 | 12 => 31
  | _ => -1
  end.

Definition DAYS_BEFORE_MONTH (m : Z) : Z :=
  match m with
  | 1 => 0 | 2 => 31 | 3 => 59 | 4 => 90 | 5 => 120 | 6 => 151
  | 7 => 181 | 8 => 212 | 9 => 243 | 10 => 273 | 11 => 304 | 12 => 334
  | _ => -1
  end.

Definition days_in_month (y m : Z) : Z :=
  if (m =? 2) && is_leap y then 29 else DAYS_IN_MONTH m.

Definition days_before_month (y m : Z) : Z :=
  DAYS_BEFORE_MONTH m + (if (2 <? m) && is_leap y then 1 else 0).

Definition ymd2ord (y m d : Z) : Z :=
  days_before_year y + days_before_month y m + d.

Definition toordinal (t : datetime) : Z := ymd2ord (year t) (month t) (day t).

Definition DI400Y : Z := 146097.
Definition DI100Y : Z := 36524.
Definition DI4Y : Z := 1461.

Definition ord2ymd (ordinal : Z) : datetime :=
  let n := ordinal - 1 in
  let n400 := n / DI400Y in
  let n := n mod DI400Y in
  let y := n400 * 400 + 1 in
  let n100 := n / DI100Y in
  let n := n mod DI100Y in
  let n4 := n / DI4Y in
  let n := n mod DI4Y in
  let n1 := n / 365 in
  let n := n mod 365 in
  let y := y + n100 * 100 + n4 * 4 + n1 in
  if (n1 =? 4) || (n100 =? 4) then mk_datetime (y - 1) 12 31
  else
    let leapyear := (n1 =? 3) && (negb (n4 =? 24) || (n100 =? 3)) in
    let m := Z.shiftr (n + 50) 5 in
    let preceding :=
      DAYS_BEFORE_MONTH m + (if (2 <? m) && leapyear then 1 else 0) in
    if n <? preceding then
      let m' := m - 1 in
      let preceding' :=
        preceding
        - (DAYS_IN_MONTH m' + (if (m' =? 2) && leapyear then 1 else 0)) in
      mk_datetime y m' (n - preceding' + 1)
    else mk_datetime y m (n - preceding + 1).

(** [t - dt.timedelta(days=n)]: the result must have an ordinal in
    [1 .. 3652059], otherwise Python raises OverflowError. *)
Definition MAXORDINAL : Z := 3652059.

Definition sub_days (t : datetime) (n : Z) : outcome datetime :=
  let o := toordinal t - n in
  if (0 <? o) && (o <=? MAXORDINAL) then Return (ord2ymd o)
  else Raise OverflowError.

(** *** [strptime(s, "%Y-%m-%d")] *)

(** [\d] of the regular expression of the format, on the bytes of an ASCII
    text.  Python's [\d] also accepts the other decimal digits of Unicode;
    the properties that rest on the parser are stated for ASCII texts, the
    well-formed dates among them. *)
Definition is_digit (c : ascii) : bool :=
  ((48 <=? nat_of_ascii c) && (nat_of_ascii c <=? 57))%nat.

Definition digit (c : ascii) : Z := Z.of_nat (nat_of_ascii c - 48).

Definition in_range (lo hi : nat) (c : ascii) : bool :=
  ((lo <=? nat_of_ascii c) && (nat_of_ascii c <=? hi))%nat.

(** [%Y] is the pattern [\d\d\d\d]. *)
Definition parse_Y (s : string) : option (Z * string) :=
  match s with
  | String a (String b (String c (String d r))) =>
      if is_digit a && is_digit b && is_digit c && is_digit d
      then Some (digit a * 1000 + digit b * 100 + digit c * 10 + digit d, r)
      else None
  | _ => None
  end.

(** [%m] is the pattern [1[0-2]|0[1-9]|[1-9]]; the alternatives are tried
    from left to right. *)
Definition parse_m (s : string) : option (Z * string) :=
  match s with
  | String a r =>
      let two :=
        match r with
        | String b r' =>
            if (a =? "1")%char && in_range 48 50 b
            then Some (10 + digit b, r')
            else if (a =? "0")%char && in_range 49 57 b
            then Some (digit b, r')
            else None
        | EmptyString => None
        end in
      match two with
      | Some x => Some x
      | None => if in_range 49 57 a then Some (digit a, r) else None
      end
  | EmptyString => None
  end.

(** [%d] is the pattern [3[0-1]|[1-2]\d|0[1-9]|[1-9]| [1-9]]. *)
Definition parse_d (s : string) : option (Z * string) :=
  match s with
  | String a r =>
      let two :=
        match r with
        | String b r' =>
            if (a =? "3")%char && in_range 48 49 b
            then Some (30 + digit b, r')
            else if in_range 49 50 a && is_digit b
            then Some (digit a * 10 + digit b, r')
            else if (a =? "0")%char && in_range 49 57 b
            then Some (digit b, r')
            else None
        | EmptyString => None
        end in
      match two with
      | Some x => Some x
      | None =>
          if in_range 49 57 a then Some (digit a, r)
          else
            match r with
            | String b r' =>
                if (a =? " ")%char && in_range 49 57 b
                then Some (digit b, r')
                else None
            | EmptyString => None
            end
      end
  | EmptyString => None
  end.

Definition expect (c : ascii) (s : string) : option string :=
  match s with
  | String a r => if (a =? c)%char then Some r else None
  | EmptyString => None
  end.

(** The regular expression of the format, matched at the start of the
    text; what it leaves unmatched is returned with the fields. *)
Definition match_format (s : string) : option (Z * Z * Z * string) :=
  match parse_Y s with
  | None => None
  | Some (y, s1) =>
      match expect "-" s1 with
      | None => None
      | Some s2 =>
          match parse_m s2 with
          | None => None
          | Some (m, s3) =>
              match expect "-" s3 with
              | None => None
              | Some s4 =>
                  match parse_d s4 with
                  | None => None
                  | Some (d, s5) => Some (y, m, d, s5)
                  end
              end
          end
      end
  end.

(** The argument is what [scalar()] returned: [None] is SQL NULL.  A value
    that is not a [str] raises TypeError; text that does not match the
    format, leaves data unconverted or names no calendar day raises
    ValueError. *)
Definition strptime (arg : option string) : outcome datetime :=
  match arg with
  | None => Raise TypeError
  | Some s =>
      match match_format s with
      | Some (y, m, d, EmptyString) =>
          if (1 <=? y) && (d <=? days_in_month y m)
          then Return (mk_datetime y m d)
          else Raise ValueError
      | _ => Raise ValueError
      end
  end.

(** *** The text the driver binds for a [datetime] parameter

    The column [Measurement.date] is TEXT and the right-hand side of the
    comparison is a [datetime] object, so the parameter is sent with
    SQLAlchemy's SQLite DATETIME storage format,
    [%04d-%02d-%02d %02d:%02d:%02d.%06d]. *)

Definition digit_char (n : Z) : ascii := ascii_of_nat (48 + Z.to_nat (n mod 10)).

Fixpoint zero_padded (width : nat) (n : Z) : string :=
  match width with
  | O => EmptyString
  | S w => (zero_padded w (n / 10) ++ String (digit_char n) EmptyString)%string
  end.

Definition isoformat_date (t : datetime) : string :=
  (zero_padded 4 (year t) ++ "-" ++ zero_padded 2 (month t) ++ "-"
     ++ zero_padded 2 (day t))%string.

Definition bind_text (t : datetime) : string :=
  (isoformat_date t ++ " 00:00:00.000000")%string.

End Datetime.

(* ------------------------------------------------------------------ *)
(** ** The reflected tables *)

Module Station.
(** A row of the [station] table; the handlers read the [station] column
    only. *)
Record t : Type := mk { station : string }.
End Station.

Module Measurement.
(** A row of the [measurement] table: [prcp] is nullable. *)
Record t : Type := mk {
  station : string;
  date : string;
  prcp : option Q;
  tobs : Q
}.
End Measurement.

(** The store behind [engine]: each table in the order in which an
    unordered [SELECT] returns its rows. *)
Record Store : Type := mk_store {
  stations : list Station.t;
  measurements : list Measurement.t
}.

(* ------------------------------------------------------------------ *)
(** ** Aggregates and grouping, as the queries use them *)

Module Sql.

(** [min], [max] and [avg] over a FLOAT column return NULL on no row. *)
Definition qmin (a b : Q) : Q := if Qle_bool a b then a else b.
Definition qmax (a b : Q) : Q := if Qle_bool a b then b else a.

Fixpoint func_min (l : list Q) : option Q :=
  match l with
  | [] => None
  | x :: r => match func_min r with None => Some x | Some y => Some (qmin x y) end
  end.

Fixpoint func_max (l : list Q) : option Q :=
  match l with
  | [] => None
  | x :: r => match func_max r with None => Some x | Some y => Some (qmax x y) end
  end.

Definition total (l : list Q) : Q := fold_right Qplus 0%Q l.

(** [avg] adds and divides doubles in SQLite; sum and quotient are exact
    here.  For whole numbers of moderate size the sum of the doubles is
    exact as well, and their quotient is the double nearest to the exact
    average: it lies on the same side of every point half-way between two
    hundredths as the exact average does, unless that average is such a
    point itself. *)
Definition func_avg (l : list Q) : option Q :=
  match l with
  | [] => None
  | _ :: _ => Some (total l / inject_Z (Z.of_nat (List.length l)))%Q
  end.

(** [GROUP BY station] with [count(station)]: one pair per distinct
    station code. *)
Fixpoint count_into (s : string) (g : list (string * nat)) : list (string * nat) :=
  match g with
  | [] => [(s, 1%nat)]
  | (k, n) :: r =>
      if String.eqb k s then (k, S n) :: r else (k, n) :: count_into s r
  end.

Definition group_count (rows : list Measurement.t) : list (string * nat) :=
  fold_left (fun g m => count_into (Measurement.station m) g) rows [].

End Sql.

(* ------------------------------------------------------------------ *)
(** ** JSON values and Python dictionaries *)

(** A JSON value; a [JDict] lists the items of the Python dictionary it was
    made from, in the order of the dictionary. *)
#[local] Set Warnings "-register-all".
Inductive json : Type :=
| JNull
| JNum (q : Q)
| JStr (s : string)
| JList (l : list json)
| JDict (items : list (string * json)).

Inductive response : Type :=
| Html (body : string)
| Json (value : json).

Definition jsonify (value : json) : response := Json value.

Definition json_of_number (x : option Q) : json :=
  match x with
  | None => JNull
  | Some q => JNum q
  end.

Module Dict.

(** A Python [dict] with text keys: items in insertion order; storing under
    a key already present replaces its value in place. *)
Definition t (V : Type) : Type := list (string * V).

Fixpoint setitem {V : Type} (k : string) (v : V) (d : t V) : t V :=
  match d with
  | [] => [(k, v)]
  | (k', v') :: r =>
      if String.eqb k' k then (k', v) :: r else (k', v') :: setitem k v r
  end.

Fixpoint get {V : Type} (k : string) (d : t V) : option V :=
  match d with
  | [] => None
  | (k', v') :: r => if String.eqb k' k then Some v' else get k r
  end.

Definition keys {V : Type} (d : t V) : list string := map fst d.

(** [{k: v for k, v in rows}] *)
Definition comprehension {V : Type} (rows : list (string * V)) : t V :=
  fold_left (fun d kv => setitem (fst kv) (snd kv) d) rows [].

End Dict.

(* ------------------------------------------------------------------ *)
(** ** Built-ins *)

(** [l[0]] *)
Definition getitem0 {A : Type} (l : list A) : outcome A :=
  match l with
  | [] => Raise IndexError
  | x :: _ => Return x
  end.

(** Rounding half to even, the rule of Python's [round].  Python rounds
    the double it is given: a decimal half-way between two hundredths is
    seldom a double, and the double next to it falls on one side (2.675 is
    stored just below and rounds to 2.67).  Away from the half-way points
    rounding the double and rounding the exact value agree. *)
Definition round_half_even (q : Q) : Z :=
  let f := Qfloor q in
  match (q - inject_Z f ?= 1 # 2)%Q with
  | Lt => f
  | Gt => (f + 1)%Z
  | Eq => if Z.even f then f else (f + 1)%Z
  end.

Definition round_digits (q : Q) (ndigits : nat) : Q :=
  let scale := Z.to_pos (10 ^ Z.of_nat ndigits) in
  Qmake (round_half_even (q * inject_Z (Zpos scale))) scale.

(** [round(x, 2)]: a NULL aggregate arrives as [None], which has no
    [__round__]. *)
Definition round2 (x : option Q) : outcome Q :=
  match x with
  | None => Raise TypeError
  | Some q => Return (round_digits q 2)
  end.

(* ------------------------------------------------------------------ *)
(** ** Handlers run in a world: the store and the sessions held open *)

Record World : Type := mk_world {
  engine : Store;
  open_sessions : list nat;
  next_session : nat
}.

Definition M (A : Type) : Type := World -> outcome A * World.

Definition ret {A : Type} (a : A) : M A := fun w => (Return a, w).

Definition bind {A B : Type} (c : M A) (k : A -> M B) : M B :=
  fun w =>
    match c w with
    | (Return a, w') => k a w'
    | (Raise e, w') => (Raise e, w')
    end.

Definition lift {A : Type} (o : outcome A) : M A := fun w => (o, w).

Declare Scope handler_scope.
Delimit Scope handler_scope with handler.
Notation "x <- c ;; k" := (bind c (fun x => k))
  (at level 61, c at next level, right associativity) : handler_scope.
Notation "c ;;; k" := (bind c (fun _ => k))
  (at level 61, right associativity) : handler_scope.

Module Session.

Definition t : Type := nat.

(** [Session(engine)] *)
Definition open : M t :=
  fun w =>
    (Return (next_session w),
     mk_world (engine w) (next_session w :: open_sessions w)
              (S (next_session w))).

(** [session.query(...)] followed by [.all()] or [.scalar()]: the rows
    are a function of the store. *)
Definition query {A : Type} (session : t) (q : Store -> A) : M A :=
  fun w => (Return (q (engine w)), w).

(** [session.close()] *)
Definition close (session : t) : M unit :=
  fun w =>
    (Return tt,
     mk_world (engine w) (remove Nat.eq_dec session (open_sessions w))
              (next_session w)).

End Session.

(* ------------------------------------------------------------------ *)
(** ** The route handlers *)

Import Datetime.
Local Open Scope handler_scope.

Definition dq : string := String (ascii_of_nat 34) EmptyString.
Definition nl : string := String (ascii_of_nat 10) EmptyString.

Definition route_link (href text : string) : string :=
  "            <li><a href=" ++ dq ++ href ++ dq ++ ">" ++ text
    ++ "</a></li>" ++ nl.

(** The text literal returned by [homepage]. *)
Definition homepage_text : string :=
  nl ++ "        <h1>Hawaii Climate Analysis</h1>" ++ nl
  ++ "        <hr/>" ++ nl
  ++ "        <h2> Available Routes </h2>" ++ nl
  ++ "        <ul>" ++ nl
  ++ route_link "/" "Homepage"
  ++ route_link "/api/v1.0/precipitation" "Precipitation"
  ++ route_link "/api/v1.0/stations" "All Stations"
  ++ route_link "/api/v1.0/tobs"
       "Temperature observations for the most active station"
  ++ route_link "/api/v1.0/start/2017-01-01"
       "Calculate min, avg, and max temperatures for the dates from the start date to the end of the dataset"
  ++ route_link "/api/v1.0/end/2016-01-01/2017-12-12"
       "Calculate min, avg, and max temperatures for the dates from the start date to the end date, inclusive."
  ++ "        </ul>" ++ nl
  ++ "    ".

(** [@app.route("/")] *)
Definition homepage : M response :=
  ret (Html homepage_text).

(** The rows of [query(Measurement.date, Measurement.prcp)
    .filter(Measurement.date >= last_year_date).all()]. *)
Definition data_last_year_query (last_year_date : datetime) (db : Store)
  : list (string * option Q) :=
  map (fun m => (Measurement.date m, Measurement.prcp m))
      (filter (fun m => Text.ge (Measurement.date m) (bind_text last_year_date))
              (measurements db)).

(** [query(func.max(Measurement.date)).scalar()] *)
Definition recent_date_query (db : Store) : option string :=
  Text.maximum (map Measurement.date (measurements db)).

(** [@app.route("/api/v1.0/precipitation")] *)
Definition precipitation : M response :=
  session <- Session.open ;;
  recent_date <- Session.query session recent_date_query ;;
  recent_date <- lift (strptime recent_date) ;;
  last_year_date <- lift (sub_days recent_date 365) ;;
  data_last_year <- Session.query session (data_last_year_query last_year_date) ;;
  Session.close session ;;;
  ret (jsonify (JDict (Dict.comprehension
                         (map (fun r => (fst r, json_of_number (snd r)))
                              data_last_year)))).

(** [@app.route("/api/v1.0/stations")] *)
Definition all_stations : M response :=
  session <- Session.open ;;
  stations <- Session.query session
                (fun db => map Station.station (stations db)) ;;
  Session.close session ;;;
  let stations := map (fun station => station) stations in
  ret (jsonify (JList (map JStr stations))).

(** [query(func.max(Measurement.date))
    .filter(Measurement.station == most_active_station_id).scalar()] *)
Definition most_recent_date_query (most_active_station_id : string) (db : Store)
  : option string :=
  Text.maximum
    (map Measurement.date
         (filter (fun m => String.eqb (Measurement.station m) most_active_station_id)
                 (measurements db))).

(** [query(Measurement.date, Measurement.tobs)
    .filter(Measurement.station == most_active_station_id,
            Measurement.date >= last_year_date).all()] *)
Definition temperature_data_query (most_active_station_id : string)
    (last_year_date : datetime) (db : Store) : list (string * Q) :=
  map (fun m => (Measurement.date m, Measurement.tobs m))
      (filter (fun m =>
                 String.eqb (Measurement.station m) most_active_station_id
                 && Text.ge (Measurement.date m) (bind_text last_year_date))
              (measurements db)).

Definition observation (row : string * Q) : json :=
  JDict [("date", JStr (fst row)); ("temperature", JNum (snd row))].

Section MostActiveStation.

(** [ORDER BY count(station) DESC]: how the store arranges the groups.
    SQL fixes the order only up to groups of equal count. *)
Variable order_by_count_desc : list (string * nat) -> list (string * nat).

(** [query(Measurement.station, func.count(Measurement.station))
    .group_by(Measurement.station)
    .order_by(func.count(Measurement.station).desc()).all()] *)
Definition ordered_stations_query (db : Store) : list (string * nat) :=
  order_by_count_desc (Sql.group_count (measurements db)).

(** [@app.route("/api/v1.0/tobs")] *)
Definition tobs : M response :=
  session <- Session.open ;;
  most_active_stations <- Session.query session ordered_stations_query ;;
  first <- lift (getitem0 most_active_stations) ;;
  let most_active_station_id := fst first in
  most_recent_date <- Session.query session
                        (most_recent_date_query most_active_station_id) ;;
  most_recent_date <- lift (strptime most_recent_date) ;;
  last_year_date <- lift (sub_days most_recent_date 365) ;;
  temperature_data <- Session.query session
                        (temperature_data_query most_active_station_id
                                                last_year_date) ;;
  Session.close session ;;;
  let data := map observation temperature_data in
  ret (jsonify (JList data)).

End MostActiveStation.

(** The single row of [query(func.min(tobs), func.avg(tobs), func.max(tobs))]
    over the rows that pass the filters. *)
Definition aggregate_row (rows : list Measurement.t)
  : list (option Q * option Q * option Q) :=
  let temperatures := map Measurement.tobs rows in
  [(Sql.func_min temperatures, Sql.func_avg temperatures,
    Sql.func_max temperatures)].

(** [.filter(Measurement.date >= start)] *)
Definition start_query (start : string) (db : Store)
  : list (option Q * option Q * option Q) :=
  aggregate_row
    (filter (fun m => Text.ge (Measurement.date m) start) (measurements db)).

(** [@app.route("/api/v1.0/start/<start>")] *)
Definition start_date (start : string) : M response :=
  session <- Session.open ;;
  results <- Session.query session (start_query start) ;;
  Session.close session ;;;
  row <- lift (getitem0 results) ;;
  let '(tmin, tavg, tmax) := row in
  avg <- lift (round2 tavg) ;;
  let data := [("min", json_of_number tmin);
               ("avg", JNum avg);
               ("max", json_of_number tmax);
               ("start", JStr start)] in
  ret (jsonify (JDict data)).

(** [.filter(Measurement.date >= start).filter(Measurement.date <= end)] *)
Definition start_end_query (start end_ : string) (db : Store)
  : list (option Q * option Q * option Q) :=
  aggregate_row
    (filter (fun m => Text.le (Measurement.date m) end_)
            (filter (fun m => Text.ge (Measurement.date m) start)
                    (measurements db))).

(** [@app.route("/api/v1.0/end/<start>/<end>")] *)
Definition start_end_date (start end_ : string) : M response :=
  session <- Session.open ;;
  results <- Session.query session (start_end_query start end_) ;;
  Session.close session ;;;
  row <- lift (getitem0 results) ;;
  let '(tmin, tavg, tmax) := row in
  avg <- lift (round2 tavg) ;;
  let data := [("min", json_of_number tmin);
               ("avg", JNum avg);
               ("max", json_of_number tmax);
               ("start", JStr start);
               ("end", JStr end_)] in
  ret (jsonify (JDict data)).

(** The routing table of [app]. *)
Inductive request : Type :=
| GET_homepage
| GET_precipitation
| GET_stations
| GET_tobs
| GET_start (start : string)
| GET_end (start end_ : string).

Definition dispatch (order_by_count_desc : list (string * nat) -> list (string * nat))
    (r : request) : M response :=
  match r with
  | GET_homepage => homepage
  | GET_precipitation => precipitation
  | GET_stations => all_stations
  | GET_tobs => tobs order_by_count_desc
  | GET_start start => start_date start
  | GET_end start end_ => start_end_date start end_
  end.

Close Scope handler_scope.

(* ------------------------------------------------------------------ *)
(** ** Vocabulary of the properties *)

(** [contains needle hay]: the text [needle] occurs in [hay]. *)
Fixpoint contains (needle hay : string) : bool :=
  String.prefix needle hay
  || match hay with
     | EmptyString => false
     | String _ r => contains needle r
     end.

(** The paths of the five data routes, up to their parameters. *)
Definition data_routes : list string :=
  ["/api/v1.0/precipitation"; "/api/v1.0/stations"; "/api/v1.0/tobs";
   "/api/v1.0/start/"; "/api/v1.0/end/"].

(** The invariant of the data model on the [date] column, which the source
    relies on and never checks: a well-formed [YYYY-MM-DD] text, four
    digits, two digits and two digits that name a calendar day. *)
Definition iso_date (s : string) : bool :=
  match s with
  | String y1 (String y2 (String y3 (String y4 (String h1
      (String m1 (String m2 (String h2 (String d1 (String d2 EmptyString))))))))) =>
      let y := (digit y1 * 1000 + digit y2 * 100 + digit y3 * 10 + digit y4)%Z in
      let m := (digit m1 * 10 + digit m2)%Z in
      let d := (digit d1 * 10 + digit d2)%Z in
      is_digit y1 && is_digit y2 && is_digit y3 && is_digit y4
      && (h1 =? "-")%char && is_digit m1 && is_digit m2
      && (h2 =? "-")%char && is_digit d1 && is_digit d2
      && (1 <=? y)%Z && (1 <=? m)%Z && (m <=? 12)%Z
      && (1 <=? d)%Z && (d <=? days_in_month y m)%Z
  | _ => false
  end.

Definition dates_well_formed (db : Store) : Prop :=
  Forall (fun m => iso_date (Measurement.date m) = true) (measurements db).

(** The number of distinct station codes of the [station] table. *)
Definition distinct_station_count (db : Store) : nat :=
  List.length (nodup string_dec (map Station.station (stations db))).

(** The measurements from [start] on, and those of the window from [start]
    to [end_], both bounds included, in the words of the route
    descriptions. *)
Definition from_start (start : string) (db : Store) : list Measurement.t :=
  filter (fun m => Text.le start (Measurement.date m)) (measurements db).

Definition in_window (start end_ : string) (db : Store) : list Measurement.t :=
  filter (fun m => Text.le start (Measurement.date m)
                   && Text.le (Measurement.date m) end_)
         (measurements db).

Definition temperatures (rows : list Measurement.t) : list Q :=
  map Measurement.tobs rows.

(** The value of the [avg] aggregate of the store on a non-empty [l]. *)
Definition mean (l : list Q) : Q :=
  (Sql.total l / inject_Z (Z.of_nat (List.length l)))%Q.

Definition is_minimum (x : Q) (l : list Q) : Prop :=
  In x l /\ Forall (fun y => (x <= y)%Q) l.

Definition is_maximum (x : Q) (l : list Q) : Prop :=
  In x l /\ Forall (fun y => (y <= x)%Q) l.


(** Reading a numeric field of a JSON response. *)
Definition number_field (k : string) (r : outcome response) : option Q :=
  match r with
  | Return (Json (JDict items)) =>
      match Dict.get k items with
      | Some (JNum q) => Some q
      | _ => None
      end
  | _ => None
  end.

Definition field (k : string) (r : outcome response) : option json :=
  match r with
  | Return (Json (JDict items)) => Dict.get k items
  | _ => None
  end.

(** The number of measurements of station [k]. *)
Definition observation_count (k : string) (rows : list Measurement.t) : nat :=
  List.length (filter (fun m => String.eqb (Measurement.station m) k) rows).

(** The count a grouping holds for station [k], zero when it has none. *)
Fixpoint assoc (k : string) (g : list (string * nat)) : nat :=
  match g with
  | [] => 0%nat
  | (k', n) :: r => if String.eqb k' k then n else assoc k r
  end.

(** Counts from the highest down. *)
Definition descending (a b : string * nat) : Prop := (snd b <= snd a)%nat.

(** The value of the last row stored under key [k], if any. *)
Fixpoint last_value {V : Type} (k : string) (rows : list (string * V))
  : option V :=
  match rows with
  | [] => None
  | (k', v) :: r =>
      match last_value k r with
      | Some x => Some x
      | None => if String.eqb k' k then Some v else None
      end
  end.

(** The two summary routes and the measurements each one is about. *)
Inductive summary_request : Type :=
| From_start (start : string)
| Start_end (start end_ : string).

Definition summary_route (q : summary_request) : M response :=
  match q with
  | From_start start => start_date start
  | Start_end start end_ => start_end_date start end_
  end.

Definition matching (q : summary_request) (db : Store) : list Measurement.t :=
  match q with
  | From_start start => from_start start db
  | Start_end start end_ => in_window start end_ db
  end.

(* ------------------------------------------------------------------ *)
(** ** A store engine and sample stores *)

Module StableOrder.

(** One admissible [ORDER BY count DESC]: a stable insertion sort, groups
    of equal count staying in the order of the grouping. *)
Fixpoint insert_desc (x : string * nat) (l : list (string * nat))
  : list (string * nat) :=
  match l with
  | [] => [x]
  | y :: r => if (snd y <=? snd x)%nat then x :: y :: r else y :: insert_desc x r
  end.

Definition sort_desc (l : list (string * nat)) : list (string * nat) :=
  fold_right insert_desc [] l.

End StableOrder.

Module Sample.

Definition row (s d : string) (p : option Q) (t : Q) : Measurement.t :=
  Measurement.mk s d p t.

Definition world_of (db : Store) : World := mk_world db [] 0.

(** No measurement at all. *)
Definition empty_store : Store :=
  mk_store [Station.mk "USC00519281"] [].

(** The last day of data and the day exactly 365 days before it. *)
Definition year_apart : Store :=
  mk_store [Station.mk "USC00519281"]
           [row "USC00519281" "2016-08-23" (Some (15 # 10)) 77;
            row "USC00519281" "2017-08-23" (Some 0) 81].

(** Two stations, one day measured twice, one value not recorded. *)
Definition two_stations : Store :=
  mk_store [Station.mk "USC00519281"; Station.mk "USC00519397"]
           [row "USC00519281" "2017-08-21" (Some (2 # 100)) 76;
            row "USC00519397" "2017-08-21" None 79;
            row "USC00519281" "2017-08-22" (Some (5 # 10)) 78;
            row "USC00519281" "2017-08-23" (Some 0) 81;
            row "USC00519397" "2017-08-23" (Some (8 # 100)) 82].


End Sample.


(* ------------------------------------------------------------------ *)
(** ** Vocabulary of the further properties *)

(** Every session held open was handed out by [Session(engine)] before:
    its number is below the number the next session will get. *)
Definition sessions_known (w : World) : Prop :=
  Forall (fun s => (s < next_session w)%nat) (open_sessions w).

(** The world after a handler opened its session and left it open, and
    after it opened and closed it. *)
Definition left_open (w : World) : World :=
  mk_world (engine w) (next_session w :: open_sessions w) (S (next_session w)).

Definition released (w : World) : World :=
  mk_world (engine w)
           (remove Nat.eq_dec (next_session w)
                   (next_session w :: open_sessions w))
           (S (next_session w)).

Module ReverseOrder.

(** Another admissible [ORDER BY count DESC]: groups of equal count come
    out in the reverse order of the grouping. *)
Definition sort_desc (l : list (string * nat)) : list (string * nat) :=
  StableOrder.sort_desc (rev l).

End ReverseOrder.

(** A date Python accepts: year 1 to 9999, a month and a day of that
    month. *)
Definition valid_date (t : datetime) : Prop :=
  (1 <= year t <= 9999)%Z
  /\ (1 <= month t <= 12)%Z
  /\ (1 <= day t <= days_in_month (year t) (month t))%Z.

(** Dates by year, then month, then day. *)
Definition compare_dates (t t' : datetime) : comparison :=
  match (year t ?= year t')%Z with
  | Eq => match (month t ?= month t')%Z with
          | Eq => (day t ?= day t')%Z
          | other => other
          end
  | other => other
  end.

(** The numbers and the text that eight digits spell. *)
Definition number2 (a b : ascii) : Z := (digit a * 10 + digit b)%Z.

Definition number4 (a b c d : ascii) : Z :=
  (digit a * 1000 + digit b * 100 + digit c * 10 + digit d)%Z.

Definition iso_text (y1 y2 y3 y4 m1 m2 d1 d2 : ascii) : string :=
  String y1 (String y2 (String y3 (String y4 (String "-"
    (String m1 (String m2 (String "-" (String d1 (String d2 EmptyString))))))))).

Definition digits8 (y1 y2 y3 y4 m1 m2 d1 d2 : ascii) : Prop :=
  is_digit y1 = true /\ is_digit y2 = true /\ is_digit y3 = true
  /\ is_digit y4 = true /\ is_digit m1 = true /\ is_digit m2 = true
  /\ is_digit d1 = true /\ is_digit d2 = true.

(** The day a date text names, as the ordinal of that day; 0 for a text
    [strptime] rejects. *)
Definition ordinal_of (s : string) : Z :=
  match strptime (Some s) with
  | Return t => toordinal t
  | Raise _ => 0%Z
  end.

(** A summary request whose bounds are well-formed dates, and the test, in
    days, that a date lies within the bounds. *)
Definition bounds_well_formed (q : summary_request) : Prop :=
  match q with
  | From_start start => iso_date start = true
  | Start_end start end_ => iso_date start = true /\ iso_date end_ = true
  end.

Definition within_days (q : summary_request) (date : string) : bool :=
  match q with
  | From_start start => (ordinal_of start <=? ordinal_of date)%Z
  | Start_end start end_ =>
      (ordinal_of start <=? ordinal_of date)%Z
      && (ordinal_of date <=? ordinal_of end_)%Z
  end.







(** A text of ASCII characters only. *)
Fixpoint ascii_text (s : string) : bool :=
  match s with
  | EmptyString => true
  | String c r => (nat_of_ascii c <? 128)%nat && ascii_text r
  end.

Module Edge.

(** A station table that stores one code twice. *)
Definition repeated_station : Store :=
  mk_store [Station.mk "USC00519281"; Station.mk "USC00519397";
            Station.mk "USC00519281"]
           [].

(** A measurement whose date names no calendar day. *)
Definition day_32 : Store :=
  mk_store [Station.mk "USC00519281"]
           [Sample.row "USC00519281" "2017-08-32" (Some 0) 81].

End Edge.

(* ================================================================== *)
(** * Properties *)

Ltac run_handler :=
  unfold bind, ret, lift, Session.open, Session.query, Session.close;
  cbn [fst snd engine open_sessions next_session].

(** ** The root route *)

(** C9: the root route returns the same static document in every world,
    reads nothing from the store and leaves the world as it found it; the
    document names each of the five data routes. *)
Theorem homepage_static_document :
  forall w : World,
    homepage w = (Return (Html homepage_text), w)
    /\ forallb (fun path => contains path homepage_text) data_routes = true.
Proof.
  intro w. split.
  - reflexivity.
  - vm_compute. reflexivity.
Qed.

(** ** The stations route *)

Lemma all_stations_run :
  forall w : World,
    all_stations w
    = (Return (Json (JList (map JStr (map Station.station (stations (engine w)))))),
       mk_world (engine w)
                (remove Nat.eq_dec (next_session w)
                        (next_session w :: open_sessions w))
                (S (next_session w))).
Proof.
  intro w. unfold all_stations. run_handler.
  rewrite map_id. reflexivity.
Qed.

(** C5 (amended): the stations route answers with the station codes of the
    [station] table, one per row and in the order of the table; on a table
    that stores no code twice their number is the number of distinct
    stations. *)
Theorem all_stations_one_code_per_station :
  forall w : World,
    fst (all_stations w)
    = Return (Json (JList (map JStr (map Station.station (stations (engine w))))))
    /\ (NoDup (map Station.station (stations (engine w))) ->
        List.length (map JStr (map Station.station (stations (engine w))))
        = distinct_station_count (engine w)).
Proof.
  intro w. split.
  - rewrite all_stations_run. reflexivity.
  - intro Hkey. unfold distinct_station_count.
    rewrite (nodup_fixed_point string_dec Hkey).
    apply length_map.
Qed.

Lemma all_stations_one_code_per_station_witness :
  NoDup (map Station.station (stations (engine (Sample.world_of Sample.two_stations))))
  /\ fst (all_stations (Sample.world_of Sample.two_stations))
     = Return (Json (JList [JStr "USC00519281"; JStr "USC00519397"]))
  /\ List.length [JStr "USC00519281"; JStr "USC00519397"]
     = distinct_station_count Sample.two_stations.
Proof.
  assert (Hkey : NoDup (map Station.station
                          (stations (engine (Sample.world_of Sample.two_stations))))).
  { cbn. repeat constructor; cbn; intuition discriminate. }
  destruct (all_stations_one_code_per_station
              (Sample.world_of Sample.two_stations)) as [Hrun Hlen].
  split; [exact Hkey | split; [exact Hrun | exact (Hlen Hkey)]].
Defined.

(** C5, as stated, fails on a table that stores a code twice: the route
    answers with three codes, the table has two distinct ones. *)
Lemma all_stations_repeats_repeated_code :
  fst (all_stations (Sample.world_of Edge.repeated_station))
  = Return (Json (JList [JStr "USC00519281"; JStr "USC00519397";
                         JStr "USC00519281"]))
  /\ distinct_station_count Edge.repeated_station = 2%nat
  /\ List.length [JStr "USC00519281"; JStr "USC00519397"; JStr "USC00519281"]
     <> distinct_station_count Edge.repeated_station.
Proof.
  split; [reflexivity|]. split; [reflexivity|].
  vm_compute. discriminate.
Qed.

(** ** What a handler reads and writes *)

Ltac outcome_cases :=
  repeat match goal with
         | |- context [match ?o with Return _ => _ | Raise _ => _ end] =>
             destruct o; cbn [fst snd engine open_sessions next_session]
         | |- context [match ?o with Some _ => _ | None => _ end] =>
             destruct o; cbn [fst snd engine open_sessions next_session]
         | |- context [match ?o with [] => _ | _ :: _ => _ end] =>
             destruct o; cbn [fst snd engine open_sessions next_session]
         end.

Section StoreAccess.

Variable order_by_count_desc : list (string * nat) -> list (string * nat).

(** No handler writes to the store. *)
Lemma dispatch_store_unchanged :
  forall (r : request) (w : World),
    engine (snd (dispatch order_by_count_desc r w)) = engine w.
Proof.
  intros r w. destruct r; cbn [dispatch];
    unfold homepage, precipitation, all_stations, tobs, start_date,
      start_end_date, start_query, start_end_query, aggregate_row;
    run_handler; cbn [getitem0]; outcome_cases; reflexivity.
Qed.

(** The answer of a handler is a function of the store and of the path
    parameters: the sessions held open and the session counter do not
    show in it. *)
Lemma dispatch_reads_store_only :
  forall (r : request) (w1 w2 : World),
    engine w1 = engine w2 ->
    fst (dispatch order_by_count_desc r w1)
    = fst (dispatch order_by_count_desc r w2).
Proof.
  intros r [db1 open1 next1] [db2 open2 next2] Hdb.
  cbn [engine] in Hdb. subst db2.
  destruct r; cbn [dispatch];
    unfold homepage, precipitation, all_stations, tobs, start_date,
      start_end_date, start_query, start_end_query, aggregate_row;
    run_handler; cbn [getitem0]; outcome_cases; reflexivity.
Qed.

End StoreAccess.


(** ** Aggregates *)

Section Aggregates.

Local Open Scope Q_scope.

Lemma func_min_is_minimum :
  forall l : list Q, l <> [] ->
    exists x, Sql.func_min l = Some x /\ is_minimum x l.
Proof.
  induction l as [|a r IH]; intros Hne; [congruence|].
  destruct r as [|b r'].
  - exists a. cbn. split; [reflexivity|]. split; [now left|].
    repeat constructor. apply Qle_refl.
  - destruct IH as [y [Hy [Hin Hlow]]]; [discriminate|].
    cbn [Sql.func_min]. cbn [Sql.func_min] in Hy. rewrite Hy.
    unfold Sql.qmin. destruct (Qle_bool a y) eqn:Hcmp.
    + apply Qle_bool_iff in Hcmp. exists a. split; [reflexivity|].
      split; [now left|]. constructor; [apply Qle_refl|].
      eapply Forall_impl; [|exact Hlow]. cbn. intros; lra.
    + assert (~ a <= y) by (rewrite <- Qle_bool_iff; congruence).
      exists y. split; [reflexivity|].
      split; [now right|]. constructor; [lra | exact Hlow].
Qed.

Lemma func_max_is_maximum :
  forall l : list Q, l <> [] ->
    exists x, Sql.func_max l = Some x /\ is_maximum x l.
Proof.
  induction l as [|a r IH]; intros Hne; [congruence|].
  destruct r as [|b r'].
  - exists a. cbn. split; [reflexivity|]. split; [now left|].
    repeat constructor. apply Qle_refl.
  - destruct IH as [y [Hy [Hin Hup]]]; [discriminate|].
    cbn [Sql.func_max]. cbn [Sql.func_max] in Hy. rewrite Hy.
    unfold Sql.qmax. destruct (Qle_bool a y) eqn:Hcmp.
    + apply Qle_bool_iff in Hcmp. exists y. split; [reflexivity|].
      split; [now right|]. constructor; [exact Hcmp | exact Hup].
    + assert (~ a <= y) by (rewrite <- Qle_bool_iff; congruence).
      exists a. split; [reflexivity|].
      split; [now left|]. constructor; [apply Qle_refl|].
      eapply Forall_impl; [|exact Hup]. cbn. intros; lra.
Qed.

Lemma func_avg_is_mean :
  forall l : list Q, l <> [] -> Sql.func_avg l = Some (mean l).
Proof.
  intros [|a r] Hne; [congruence | reflexivity].
Qed.






End Aggregates.

(** ** Rounding *)

Section Rounding.

Local Open Scope Q_scope.












End Rounding.

(** ** The summary routes *)

Lemma filter_chain :
  forall (A : Type) (p1 p2 : A -> bool) (l : list A),
    filter p2 (filter p1 l) = filter (fun x => p1 x && p2 x) l.
Proof.
  intros A p1 p2 l. induction l as [|a r IH]; [reflexivity|].
  cbn [filter]. destruct (p1 a); cbn [andb filter]; rewrite IH; reflexivity.
Qed.

(** The rows both chained filters of [start_end_date] let through are the
    rows of the inclusive window. *)
Lemma start_end_query_window :
  forall (start end_ : string) (db : Store),
    start_end_query start end_ db = aggregate_row (in_window start end_ db).
Proof.
  intros. unfold start_end_query, in_window. rewrite filter_chain.
  reflexivity.
Qed.

Lemma start_query_from_start :
  forall (start : string) (db : Store),
    start_query start db = aggregate_row (from_start start db).
Proof. reflexivity. Qed.

Lemma temperatures_nonempty :
  forall rows : list Measurement.t, rows <> [] -> temperatures rows <> [].
Proof.
  intros [|m r] H; [congruence | discriminate].
Qed.

Lemma aggregate_row_matching :
  forall rows : list Measurement.t,
    rows <> [] ->
    exists tmin tmax,
      aggregate_row rows
      = [(Some tmin, Some (mean (temperatures rows)), Some tmax)]
      /\ is_minimum tmin (temperatures rows)
      /\ is_maximum tmax (temperatures rows).
Proof.
  intros rows Hne. apply temperatures_nonempty in Hne.
  destruct (func_min_is_minimum _ Hne) as [tmin [Hmin Hismin]].
  destruct (func_max_is_maximum _ Hne) as [tmax [Hmax Hismax]].
  exists tmin, tmax. unfold aggregate_row. fold (temperatures rows).
  rewrite Hmin, Hmax, (func_avg_is_mean _ Hne). auto.
Qed.

Lemma aggregate_row_no_match :
  aggregate_row [] = [(None, None, None)].
Proof. reflexivity. Qed.

(** What a summary route answers when some measurement matches. *)
Lemma summary_route_matching :
  forall (q : summary_request) (w : World),
    matching q (engine w) <> [] ->
    exists tmin tmax,
      is_minimum tmin (temperatures (matching q (engine w)))
      /\ is_maximum tmax (temperatures (matching q (engine w)))
      /\ fst (summary_route q w)
         = Return (Json (JDict
             ([("min", JNum tmin);
               ("avg", JNum (round_digits
                               (mean (temperatures (matching q (engine w)))) 2));
               ("max", JNum tmax)]
              ++ match q with
                 | From_start start => [("start", JStr start)]
                 | Start_end start end_ =>
                     [("start", JStr start); ("end", JStr end_)]
                 end))).
Proof.
  intros q w Hne.
  destruct (aggregate_row_matching _ Hne) as [tmin [tmax [Hrow [Hmin Hmax]]]].
  exists tmin, tmax. split; [exact Hmin|]. split; [exact Hmax|].
  destruct q as [start|start end_]; cbn [summary_route matching] in *.
  - unfold start_date. run_handler.
    rewrite start_query_from_start, Hrow. reflexivity.
  - unfold start_end_date. run_handler.
    rewrite start_end_query_window, Hrow. reflexivity.
Qed.

(** What a summary route does when no measurement matches: the aggregates
    are NULL and [round(None, 2)] raises, after the session was closed. *)
Lemma summary_route_no_match :
  forall (q : summary_request) (w : World),
    matching q (engine w) = [] ->
    summary_route q w
    = (Raise TypeError,
       mk_world (engine w)
                (remove Nat.eq_dec (next_session w)
                        (next_session w :: open_sessions w))
                (S (next_session w))).
Proof.
  intros q w Hnone.
  destruct q as [start|start end_]; cbn [summary_route matching] in *.
  - unfold start_date. run_handler.
    rewrite start_query_from_start, Hnone. reflexivity.
  - unfold start_end_date. run_handler.
    rewrite start_end_query_window, Hnone. reflexivity.
Qed.




(** ** Rounding the double next to the average *)

Section DoubleRounding.

Local Open Scope Q_scope.




End DoubleRounding.





(** C4: a summary request whose filter matches nothing does not get an
    answer with null fields: [round(None, 2)] raises TypeError.  Here the
    store holds measurements of August 2017 and the requests start in
    2018. *)
Theorem summary_no_match_raises :
  matching (From_start "2018-01-01") Sample.two_stations = []
  /\ matching (Start_end "2018-01-01" "2018-12-31") Sample.two_stations = []
  /\ start_date "2018-01-01" (Sample.world_of Sample.two_stations)
     = (Raise TypeError, mk_world Sample.two_stations [] 1)
  /\ start_end_date "2018-01-01" "2018-12-31"
                    (Sample.world_of Sample.two_stations)
     = (Raise TypeError, mk_world Sample.two_stations [] 1)
  /\ field "min" (fst (start_date "2018-01-01"
                         (Sample.world_of Sample.two_stations))) = None.
Proof.
  repeat split; vm_compute; reflexivity.
Qed.

Lemma text_le_refl : forall s : string, Text.le s s = true.
Proof.
  intro s. unfold Text.le. destruct (String.leb_total s s); assumption.
Qed.

(** The start/end query selects the measurements dated from [start] to
    [end], both bounds included. *)
Lemma in_window_spec :
  forall (start end_ : string) (db : Store) (m : Measurement.t),
    In m (in_window start end_ db)
    <-> In m (measurements db)
        /\ Text.le start (Measurement.date m) = true
        /\ Text.le (Measurement.date m) end_ = true.
Proof.
  intros start end_ db m. unfold in_window.
  rewrite filter_In, andb_true_iff. tauto.
Qed.

(** C6: the start/end route does not answer with an object for every
    [start] and [end].  With [end] before [start] no measurement lies in
    the window, the aggregate row is [(None, None, None)] and
    [round(None, 2)] raises TypeError after the session is closed: no
    object, hence no [end], is reported.  The store holds measurements of
    21 to 23 August 2017. *)
Theorem start_end_date_no_output_object :
  in_window "2017-08-23" "2017-08-21" Sample.two_stations = []
  /\ start_end_query "2017-08-23" "2017-08-21" Sample.two_stations
     = [(None, None, None)]
  /\ start_end_date "2017-08-23" "2017-08-21"
                    (Sample.world_of Sample.two_stations)
     = (Raise TypeError, mk_world Sample.two_stations [] 1)
  /\ field "end" (fst (start_end_date "2017-08-23" "2017-08-21"
                         (Sample.world_of Sample.two_stations))) = None.
Proof.
  repeat split; vm_compute; reflexivity.
Qed.

(** ** Dates *)

Section Dates.

Lemma is_digit_cases :
  forall c : ascii,
    is_digit c = true ->
    In c ["0"; "1"; "2"; "3"; "4"; "5"; "6"; "7"; "8"; "9"]%char.
Proof.
  intros [[] [] [] [] [] [] [] []] H; vm_compute in H;
    try discriminate H; cbn; tauto.
Qed.

Ltac digit_cases H :=
  apply is_digit_cases in H; cbn [In] in H;
  repeat (destruct H as [H|H]; [symmetry in H|]); [subst .. | contradiction].

Lemma parse_m_two_digits :
  forall (a b : ascii) (r : string),
    is_digit a = true -> is_digit b = true ->
    ((1 <=? digit a * 10 + digit b) && (digit a * 10 + digit b <=? 12))%Z = true ->
    parse_m (String a (String b r)) = Some ((digit a * 10 + digit b)%Z, r).
Proof.
  intros a b r Ha Hb Hrange.
  digit_cases Ha; digit_cases Hb;
    vm_compute in Hrange; try discriminate Hrange; reflexivity.
Qed.

Lemma parse_d_two_digits :
  forall (a b : ascii) (r : string),
    is_digit a = true -> is_digit b = true ->
    ((1 <=? digit a * 10 + digit b) && (digit a * 10 + digit b <=? 31))%Z = true ->
    parse_d (String a (String b r)) = Some ((digit a * 10 + digit b)%Z, r).
Proof.
  intros a b r Ha Hb Hrange.
  digit_cases Ha; digit_cases Hb;
    vm_compute in Hrange; try discriminate Hrange; reflexivity.
Qed.

Lemma days_in_month_at_most_31 :
  forall y m : Z, (days_in_month y m <= 31)%Z.
Proof.
  intros y m. unfold days_in_month, DAYS_IN_MONTH.
  destruct ((m =? 2)%Z && is_leap y); [lia|].
  destruct m as [|p|p]; try lia.
  do 4 (try destruct p as [p|p|]; try lia).
Qed.

(** [strptime] accepts every well-formed date. *)
Lemma strptime_iso_date :
  forall s : string,
    iso_date s = true -> exists t : datetime, strptime (Some s) = Return t.
Proof.
  intros s H.
  destruct s as [|y1 [|y2 [|y3 [|y4 [|h1 [|m1 [|m2 [|h2 [|d1 [|d2 [|? ?]]]]]]]]]]];
    try discriminate H.
  cbn [iso_date] in H.
  apply andb_true_iff in H; destruct H as [H Hdim].
  apply andb_true_iff in H; destruct H as [H Hd].
  apply andb_true_iff in H; destruct H as [H Hm12].
  apply andb_true_iff in H; destruct H as [H Hm].
  apply andb_true_iff in H; destruct H as [H Hy].
  apply andb_true_iff in H; destruct H as [H Hd2].
  apply andb_true_iff in H; destruct H as [H Hd1].
  apply andb_true_iff in H; destruct H as [H Hh2].
  apply andb_true_iff in H; destruct H as [H Hm2].
  apply andb_true_iff in H; destruct H as [H Hm1].
  apply andb_true_iff in H; destruct H as [H Hh1].
  apply andb_true_iff in H; destruct H as [H Hy4].
  apply andb_true_iff in H; destruct H as [H Hy3].
  apply andb_true_iff in H; destruct H as [Hy1 Hy2].
  assert (Hd31 : ((1 <=? digit d1 * 10 + digit d2)
                  && (digit d1 * 10 + digit d2 <=? 31))%Z = true).
  { rewrite Hd. cbn [andb]. apply Z.leb_le. apply Z.leb_le in Hdim.
    pose proof (days_in_month_at_most_31
                  (digit y1 * 1000 + digit y2 * 100 + digit y3 * 10 + digit y4)
                  (digit m1 * 10 + digit m2)).
    lia. }
  assert (Hm112 : ((1 <=? digit m1 * 10 + digit m2)
                   && (digit m1 * 10 + digit m2 <=? 12))%Z = true).
  { rewrite Hm, Hm12. reflexivity. }
  unfold strptime, match_format, parse_Y.
  rewrite Hy1, Hy2, Hy3, Hy4. cbn [andb].
  unfold expect at 1. rewrite Hh1.
  rewrite (parse_m_two_digits _ _ _ Hm1 Hm2 Hm112).
  unfold expect. rewrite Hh2.
  rewrite (parse_d_two_digits _ _ _ Hd1 Hd2 Hd31).
  rewrite Hy, Hdim. cbn [andb].
  eexists. reflexivity.
Qed.

Lemma maximum_in :
  forall (l : list string) (x : string),
    Text.maximum l = Some x -> In x l.
Proof.
  induction l as [|a r IH]; intros x H; [discriminate|].
  cbn [Text.maximum] in H. destruct (Text.maximum r) as [y|].
  - injection H as <-. unfold Text.max2.
    destruct (Text.le a y); [right; now apply IH | now left].
  - injection H as <-. now left.
Qed.

Lemma maximum_some :
  forall l : list string, l <> [] -> exists x, Text.maximum l = Some x.
Proof.
  intros [|a r] H; [congruence|].
  cbn [Text.maximum]. destruct (Text.maximum r); eauto.
Qed.

(** The greatest date of a non-empty selection of well-formed rows is
    there and [strptime] reads it. *)
Lemma maximum_date_parses :
  forall rows : list Measurement.t,
    rows <> [] ->
    Forall (fun m => iso_date (Measurement.date m) = true) rows ->
    exists (d : string) (t : datetime),
      Text.maximum (map Measurement.date rows) = Some d
      /\ In d (map Measurement.date rows)
      /\ strptime (Some d) = Return t.
Proof.
  intros rows Hne Hwf.
  destruct (maximum_some (map Measurement.date rows)) as [d Hd].
  { destruct rows; [congruence | discriminate]. }
  pose proof (maximum_in _ _ Hd) as Hin.
  destruct (proj1 (in_map_iff _ _ _) Hin) as [m [Hm Hrow]].
  rewrite Forall_forall in Hwf. specialize (Hwf m Hrow). rewrite Hm in Hwf.
  destruct (strptime_iso_date _ Hwf) as [t Ht].
  exists d, t. auto.
Qed.

End Dates.

(** ** Grouping by station *)

Section Grouping.

Lemma assoc_count_into :
  forall (s k : string) (g : list (string * nat)),
    assoc k (Sql.count_into s g)
    = if String.eqb s k then S (assoc k g) else assoc k g.
Proof.
  intros s k g. induction g as [|[k' n] r IH].
  - cbn. destruct (String.eqb s k); reflexivity.
  - cbn [Sql.count_into]. destruct (String.eqb_spec k' s) as [->|Hks].
    + cbn [assoc]. destruct (String.eqb s k); reflexivity.
    + cbn [assoc]. destruct (String.eqb_spec k' k) as [->|Hkk].
      * destruct (String.eqb_spec s k); [congruence | reflexivity].
      * exact IH.
Qed.

Lemma keys_count_into :
  forall (s : string) (g : list (string * nat)),
    map fst (Sql.count_into s g)
    = if existsb (String.eqb s) (map fst g) then map fst g
      else map fst g ++ [s].
Proof.
  intros s g. induction g as [|[k' n] r IH]; [reflexivity|].
  cbn [Sql.count_into map fst existsb].
  rewrite (String.eqb_sym s k').
  destruct (String.eqb k' s); cbn [orb map fst]; [reflexivity|].
  rewrite IH. destruct (existsb (String.eqb s) (map fst r)); reflexivity.
Qed.

Lemma existsb_eqb_in :
  forall (s : string) (l : list string),
    existsb (String.eqb s) l = true <-> In s l.
Proof.
  intros s l. rewrite existsb_exists. split.
  - intros [x [Hx Hs]]. apply String.eqb_eq in Hs. now subst.
  - intro H. exists s. split; [exact H | apply String.eqb_refl].
Qed.

Lemma nodup_count_into :
  forall (s : string) (g : list (string * nat)),
    NoDup (map fst g) -> NoDup (map fst (Sql.count_into s g)).
Proof.
  intros s g H. rewrite keys_count_into.
  destruct (existsb (String.eqb s) (map fst g)) eqn:E; [exact H|].
  apply NoDup_app; [exact H | repeat constructor; intros [] | ].
  intros x Hx [<-|[]].
  apply existsb_eqb_in in Hx. congruence.
Qed.

Lemma positive_count_into :
  forall (s : string) (g : list (string * nat)),
    Forall (fun kn => 0 < snd kn)%nat g ->
    Forall (fun kn => 0 < snd kn)%nat (Sql.count_into s g).
Proof.
  intros s g H. induction H as [|[k n] r Hn Hr IH].
  - repeat constructor.
  - cbn [Sql.count_into]. destruct (String.eqb k s); constructor;
      cbn [snd] in *; auto; lia.
Qed.

Lemma assoc_of_member :
  forall (k : string) (n : nat) (g : list (string * nat)),
    NoDup (map fst g) -> In (k, n) g -> assoc k g = n.
Proof.
  intros k n g. induction g as [|[k' n'] r IH]; intros Hnd Hin; [easy|].
  cbn [map fst] in Hnd. inversion Hnd as [|? ? Hnot Hnd']; subst.
  cbn [assoc]. destruct Hin as [Heq|Hin].
  - injection Heq as -> ->. now rewrite String.eqb_refl.
  - destruct (String.eqb_spec k' k) as [->|Hne]; [|now apply IH].
    exfalso. apply Hnot. apply in_map_iff. now exists (k, n).
Qed.

Lemma fold_count_into :
  forall (rows : list Measurement.t) (g : list (string * nat)),
    NoDup (map fst g) ->
    Forall (fun kn => 0 < snd kn)%nat g ->
    NoDup (map fst (fold_left
                      (fun g m => Sql.count_into (Measurement.station m) g)
                      rows g))
    /\ Forall (fun kn => 0 < snd kn)%nat
              (fold_left (fun g m => Sql.count_into (Measurement.station m) g)
                         rows g)
    /\ (forall k,
           assoc k (fold_left
                      (fun g m => Sql.count_into (Measurement.station m) g)
                      rows g)
           = assoc k g + observation_count k rows)%nat
    /\ (g <> [] \/ rows <> [] ->
        fold_left (fun g m => Sql.count_into (Measurement.station m) g) rows g
        <> []).
Proof.
  induction rows as [|m r IH]; intros g Hnd Hpos; cbn [fold_left].
  - split; [exact Hnd|]. split; [exact Hpos|]. split.
    + intro k. unfold observation_count. cbn. lia.
    + intros [H|H]; congruence.
  - destruct (IH (Sql.count_into (Measurement.station m) g))
      as [H1 [H2 [H3 H4]]];
      [now apply nodup_count_into | now apply positive_count_into |].
    split; [exact H1|]. split; [exact H2|]. split.
    + intro k. rewrite H3, assoc_count_into.
      unfold observation_count. cbn [filter].
      destruct (String.eqb (Measurement.station m) k); cbn [List.length]; lia.
    + intros _. apply H4. left. destruct g as [|[k n] g0]; cbn;
        [discriminate | destruct (String.eqb k (Measurement.station m));
                        discriminate].
Qed.

(** [GROUP BY station]: distinct station codes, each with the number of
    its measurements, which is not zero. *)
Lemma group_count_spec :
  forall rows : list Measurement.t,
    NoDup (map fst (Sql.group_count rows))
    /\ (forall k n, In (k, n) (Sql.group_count rows) ->
                    n = observation_count k rows /\ (0 < n)%nat)
    /\ (forall k, assoc k (Sql.group_count rows) = observation_count k rows)
    /\ (rows <> [] -> Sql.group_count rows <> []).
Proof.
  intro rows. unfold Sql.group_count.
  destruct (fold_count_into rows [] (NoDup_nil _) (Forall_nil _))
    as [H1 [H2 [H3 H4]]].
  split; [exact H1|]. split; [|split].
  - intros k n Hin. split.
    + rewrite <- (assoc_of_member _ _ _ H1 Hin). rewrite H3. reflexivity.
    + rewrite Forall_forall in H2. exact (H2 _ Hin).
  - intro k. rewrite H3. reflexivity.
  - intro Hne. apply H4. now right.
Qed.

End Grouping.

(** ** The store's ordering of the groups *)

Section StableOrderFacts.

Lemma insert_desc_perm :
  forall (x : string * nat) (l : list (string * nat)),
    Permutation (x :: l) (StableOrder.insert_desc x l).
Proof.
  intros x l. induction l as [|y r IH]; cbn [StableOrder.insert_desc].
  - apply Permutation_refl.
  - destruct (snd y <=? snd x)%nat; [apply Permutation_refl|].
    apply perm_trans with (y :: x :: r); [apply perm_swap|].
    now apply perm_skip.
Qed.

Lemma sort_desc_perm :
  forall l : list (string * nat), Permutation l (StableOrder.sort_desc l).
Proof.
  induction l as [|x r IH]; [apply perm_nil|].
  cbn [StableOrder.sort_desc fold_right].
  apply perm_trans with (x :: StableOrder.sort_desc r);
    [now apply perm_skip | apply insert_desc_perm].
Qed.

Lemma insert_desc_sorted :
  forall (x : string * nat) (l : list (string * nat)),
    StronglySorted descending l ->
    StronglySorted descending (StableOrder.insert_desc x l).
Proof.
  intros x l H. induction H as [|y r Hr IH Hy];
    cbn [StableOrder.insert_desc].
  - repeat constructor.
  - destruct (Nat.leb_spec (snd y) (snd x)) as [Hle|Hlt].
    + constructor; [now constructor|].
      constructor; [exact Hle|].
      eapply Forall_impl; [|exact Hy]. unfold descending. intros; lia.
    + constructor; [exact IH|].
      eapply Permutation_Forall; [apply insert_desc_perm|].
      constructor; [unfold descending; lia | exact Hy].
Qed.

Lemma sort_desc_sorted :
  forall l : list (string * nat),
    StronglySorted descending (StableOrder.sort_desc l).
Proof.
  induction l as [|x r IH]; [constructor|].
  cbn [StableOrder.sort_desc fold_right]. now apply insert_desc_sorted.
Qed.

End StableOrderFacts.

(** ** The most active station *)

Section MostActive.

Variable order_by_count_desc : list (string * nat) -> list (string * nat).

Hypothesis order_permutes :
  forall l, Permutation l (order_by_count_desc l).

Lemma ordered_stations_empty :
  forall db : Store,
    measurements db = [] -> ordered_stations_query order_by_count_desc db = [].
Proof.
  intros db H. unfold ordered_stations_query. rewrite H.
  apply Permutation_nil. apply order_permutes.
Qed.

(** On a store with measurements the grouped list has a first element,
    and its station has measurements. *)
Lemma ordered_stations_first :
  forall db : Store,
    measurements db <> [] ->
    exists first rest,
      ordered_stations_query order_by_count_desc db = first :: rest
      /\ snd first = observation_count (fst first) (measurements db)
      /\ (0 < snd first)%nat.
Proof.
  intros db Hne.
  destruct (group_count_spec (measurements db)) as [_ [Hcount [_ Hsome]]].
  specialize (Hsome Hne).
  unfold ordered_stations_query.
  pose proof (order_permutes (Sql.group_count (measurements db))) as Hperm.
  destruct (order_by_count_desc (Sql.group_count (measurements db)))
    as [|first rest] eqn:E.
  - apply Permutation_sym, Permutation_nil in Hperm. contradiction.
  - exists first, rest. split; [reflexivity|].
    apply Hcount. destruct first as [k n]. cbn [fst snd].
    eapply Permutation_in; [apply Permutation_sym; exact Hperm | now left].
Qed.

Lemma assoc_member :
  forall (k : string) (g : list (string * nat)),
    (0 < assoc k g)%nat -> In (k, assoc k g) g.
Proof.
  intros k g. induction g as [|[k' n] r IH]; cbn [assoc]; [lia|].
  destruct (String.eqb_spec k' k) as [->|Hne]; intro H.
  - now left.
  - right. now apply IH.
Qed.

Hypothesis order_sorts :
  forall l, StronglySorted descending (order_by_count_desc l).

(** The first station of the ordered list has the highest count. *)
Lemma first_station_most_active :
  forall (db : Store) (first : string * nat) (rest : list (string * nat)),
    ordered_stations_query order_by_count_desc db = first :: rest ->
    forall k : string,
      (observation_count k (measurements db)
       <= observation_count (fst first) (measurements db))%nat.
Proof.
  intros db first rest Hq k.
  destruct (group_count_spec (measurements db)) as [_ [Hcount [Hassoc _]]].
  unfold ordered_stations_query in Hq.
  pose proof (order_permutes (Sql.group_count (measurements db))) as Hperm.
  pose proof (order_sorts (Sql.group_count (measurements db))) as Hsorted.
  rewrite Hq in Hperm, Hsorted.
  assert (Hfirst : snd first = observation_count (fst first) (measurements db)).
  { destruct first as [k0 n0]. apply Hcount.
    eapply Permutation_in; [apply Permutation_sym; exact Hperm | now left]. }
  destruct (Nat.eq_dec (observation_count k (measurements db)) 0) as [Hz|Hnz];
    [lia|].
  assert (Hin : In (k, observation_count k (measurements db)) (first :: rest)).
  { eapply Permutation_in; [exact Hperm|].
    rewrite <- Hassoc. apply assoc_member. rewrite Hassoc. lia. }
  inversion Hsorted as [|? ? _ Hall]; subst.
  destruct Hin as [Heq|Hin]; [subst first; cbn [fst]; lia|].
  rewrite Forall_forall in Hall. specialize (Hall _ Hin).
  unfold descending in Hall. cbn [snd] in Hall. lia.
Qed.

End MostActive.

(** ** The precipitation and tobs routes, step by step *)

Lemma precipitation_no_date :
  forall w : World,
    recent_date_query (engine w) = None ->
    precipitation w
    = (Raise TypeError,
       mk_world (engine w) (next_session w :: open_sessions w)
                (S (next_session w))).
Proof.
  intros w H. unfold precipitation. run_handler. rewrite H. reflexivity.
Qed.

Lemma precipitation_run :
  forall (w : World) (d : string) (t : datetime),
    recent_date_query (engine w) = Some d ->
    strptime (Some d) = Return t ->
    precipitation w
    = match sub_days t 365 with
      | Return last_year_date =>
          (Return (Json (JDict (Dict.comprehension
                                  (map (fun r => (fst r, json_of_number (snd r)))
                                       (data_last_year_query last_year_date
                                                             (engine w)))))),
           mk_world (engine w)
                    (remove Nat.eq_dec (next_session w)
                            (next_session w :: open_sessions w))
                    (S (next_session w)))
      | Raise e =>
          (Raise e,
           mk_world (engine w) (next_session w :: open_sessions w)
                    (S (next_session w)))
      end.
Proof.
  intros w d t Hd Ht. unfold precipitation. run_handler.
  rewrite Hd, Ht. destruct (sub_days t 365); reflexivity.
Qed.

Lemma tobs_no_station :
  forall (order_by_count_desc : list (string * nat) -> list (string * nat))
         (w : World),
    ordered_stations_query order_by_count_desc (engine w) = [] ->
    tobs order_by_count_desc w
    = (Raise IndexError,
       mk_world (engine w) (next_session w :: open_sessions w)
                (S (next_session w))).
Proof.
  intros order w H. unfold tobs. run_handler. rewrite H. reflexivity.
Qed.

Lemma tobs_run :
  forall (order_by_count_desc : list (string * nat) -> list (string * nat))
         (w : World) (first : string * nat) (rest : list (string * nat))
         (d : string) (t : datetime),
    ordered_stations_query order_by_count_desc (engine w) = first :: rest ->
    most_recent_date_query (fst first) (engine w) = Some d ->
    strptime (Some d) = Return t ->
    tobs order_by_count_desc w
    = match sub_days t 365 with
      | Return last_year_date =>
          (Return (Json (JList (map observation
                                    (temperature_data_query (fst first)
                                       last_year_date (engine w))))),
           mk_world (engine w)
                    (remove Nat.eq_dec (next_session w)
                            (next_session w :: open_sessions w))
                    (S (next_session w)))
      | Raise e =>
          (Raise e,
           mk_world (engine w) (next_session w :: open_sessions w)
                    (S (next_session w)))
      end.
Proof.
  intros order w first rest d t Hq Hd Ht. unfold tobs. run_handler.
  rewrite Hq. cbn [getitem0]. rewrite Hd, Ht.
  destruct (sub_days t 365); reflexivity.
Qed.

Lemma sub_days_raises_overflow_only :
  forall (t : datetime) (n : Z) (e : exn),
    sub_days t n = Raise e -> e = OverflowError.
Proof.
  intros t n e. unfold sub_days.
  destruct ((0 <? toordinal t - n)%Z && (toordinal t - n <=? MAXORDINAL)%Z);
    congruence.
Qed.

Lemma station_rows_well_formed :
  forall (k : string) (db : Store),
    dates_well_formed db ->
    Forall (fun m => iso_date (Measurement.date m) = true)
           (filter (fun m => String.eqb (Measurement.station m) k)
                   (measurements db)).
Proof.
  intros k db H. unfold dates_well_formed in H.
  rewrite Forall_forall in *. intros m Hm.
  apply filter_In in Hm. now apply H.
Qed.

Lemma strptime_text_raises_value_error :
  forall (s : string) (e : exn),
    strptime (Some s) = Raise e -> e = ValueError.
Proof.
  intros s e. unfold strptime.
  destruct (match_format s) as [[[[y m] d] [|c r]]|];
    [destruct ((1 <=? y)%Z && (d <=? days_in_month y m)%Z)| |];
    intro H; try discriminate H; now injection H.
Qed.

Lemma precipitation_raises :
  forall (w : World) (d : string) (e : exn),
    recent_date_query (engine w) = Some d ->
    fst (precipitation w) = Raise e ->
    e = ValueError \/ e = OverflowError.
Proof.
  intros w d e Hd.
  destruct (strptime (Some d)) as [t|e'] eqn:Ht.
  - rewrite (precipitation_run w d t Hd Ht).
    destruct (sub_days t 365) eqn:Hsub; cbn [fst]; intro He;
      [discriminate He|].
    injection He as <-. right.
    now apply sub_days_raises_overflow_only in Hsub.
  - unfold precipitation. run_handler. rewrite Hd, Ht. cbn [fst].
    intro He. injection He as <-. left.
    now apply strptime_text_raises_value_error in Ht.
Qed.

Lemma tobs_raises :
  forall (order_by_count_desc : list (string * nat) -> list (string * nat))
         (w : World) (first : string * nat) (rest : list (string * nat))
         (d : string) (e : exn),
    ordered_stations_query order_by_count_desc (engine w) = first :: rest ->
    most_recent_date_query (fst first) (engine w) = Some d ->
    fst (tobs order_by_count_desc w) = Raise e ->
    e = ValueError \/ e = OverflowError.
Proof.
  intros order w first rest d e Hq Hd.
  destruct (strptime (Some d)) as [t|e'] eqn:Ht.
  - rewrite (tobs_run order w first rest d t Hq Hd Ht).
    destruct (sub_days t 365) eqn:Hsub; cbn [fst]; intro He;
      [discriminate He|].
    injection He as <-. right.
    now apply sub_days_raises_overflow_only in Hsub.
  - unfold tobs. run_handler. rewrite Hq. cbn [getitem0].
    rewrite Hd, Ht. cbn [fst].
    intro He. injection He as <-. left.
    now apply strptime_text_raises_value_error in Ht.
Qed.

(** C10 (amended): without measurements both handlers fail before
    answering, [precipitation] with TypeError on parsing the NULL maximum
    date and [tobs] with IndexError on indexing the empty list of groups.
    With at least one measurement the maximum date is not NULL, the list
    of groups has a first element and the maximum date of its station is
    not NULL: neither handler raises TypeError or IndexError.  Whether
    the date parses is a matter of the stored text: when the dates of the
    store are well-formed both maximum dates parse, and OverflowError is
    all that either handler can raise. *)
Theorem measurements_precondition :
  forall (order_by_count_desc : list (string * nat) -> list (string * nat))
         (w : World),
    (forall l, Permutation l (order_by_count_desc l)) ->
    (measurements (engine w) = [] ->
       fst (precipitation w) = Raise TypeError
       /\ fst (tobs order_by_count_desc w) = Raise IndexError)
    /\ (measurements (engine w) <> [] ->
        (exists d : string, recent_date_query (engine w) = Some d)
        /\ (exists (first : string * nat) (rest : list (string * nat))
                   (d : string),
               ordered_stations_query order_by_count_desc (engine w)
               = first :: rest
               /\ getitem0 (ordered_stations_query order_by_count_desc (engine w))
                  = Return first
               /\ most_recent_date_query (fst first) (engine w) = Some d)
        /\ (forall e : exn,
               fst (precipitation w) = Raise e
               \/ fst (tobs order_by_count_desc w) = Raise e ->
               e <> TypeError /\ e <> IndexError)
        /\ (dates_well_formed (engine w) ->
            (exists (d : string) (t : datetime),
                recent_date_query (engine w) = Some d
                /\ strptime (Some d) = Return t)
            /\ (exists (first : string * nat) (rest : list (string * nat))
                       (d : string) (t : datetime),
                   ordered_stations_query order_by_count_desc (engine w)
                   = first :: rest
                   /\ getitem0 (ordered_stations_query order_by_count_desc
                                                       (engine w))
                      = Return first
                   /\ most_recent_date_query (fst first) (engine w) = Some d
                   /\ strptime (Some d) = Return t)
            /\ (forall e : exn,
                   fst (precipitation w) = Raise e
                   \/ fst (tobs order_by_count_desc w) = Raise e ->
                   e = OverflowError))).
Proof.
  intros order w Hperm. split.
  - intro Hempty. split.
    + rewrite precipitation_no_date; [reflexivity|].
      unfold recent_date_query. rewrite Hempty. reflexivity.
    + rewrite tobs_no_station; [reflexivity|].
      now apply ordered_stations_empty.
  - intro Hne.
    destruct (maximum_some (map Measurement.date (measurements (engine w))))
      as [d0 Hd0].
    { destruct (measurements (engine w)); [congruence | discriminate]. }
    destruct (ordered_stations_first order Hperm (engine w) Hne)
      as [first [rest [Hq [Hcount Hpos]]]].
    assert (Hrows : filter (fun m => String.eqb (Measurement.station m)
                                                (fst first))
                           (measurements (engine w)) <> []).
    { intro Hnil. unfold observation_count in Hcount.
      rewrite Hnil in Hcount. cbn in Hcount. lia. }
    destruct (maximum_some
                (map Measurement.date
                     (filter (fun m => String.eqb (Measurement.station m)
                                                  (fst first))
                             (measurements (engine w)))))
      as [d1 Hd1].
    { destruct (filter _ (measurements (engine w)));
        [congruence | discriminate]. }
    split; [now exists d0|].
    split; [exists first, rest, d1; rewrite Hq; auto|].
    split.
    { intros e [He|He].
      - destruct (precipitation_raises w d0 e Hd0 He) as [-> | ->];
          split; discriminate.
      - destruct (tobs_raises order w first rest d1 e Hq Hd1 He) as [-> | ->];
          split; discriminate. }
    intro Hwf.
    destruct (maximum_date_parses _ Hne Hwf) as [d [t [Hd [_ Ht]]]].
    destruct (maximum_date_parses _ Hrows (station_rows_well_formed _ _ Hwf))
      as [d' [t' [Hd' [_ Ht']]]].
    split; [now exists d, t|].
    split; [exists first, rest, d', t'; rewrite Hq; auto|].
    intros e [He|He].
    + rewrite (precipitation_run w d t Hd Ht) in He.
      destruct (sub_days t 365) eqn:Hsub; cbn [fst] in He; [discriminate|].
      injection He as <-. now apply sub_days_raises_overflow_only in Hsub.
    + rewrite (tobs_run order w first rest d' t' Hq Hd' Ht') in He.
      destruct (sub_days t' 365) eqn:Hsub; cbn [fst] in He; [discriminate|].
      injection He as <-. now apply sub_days_raises_overflow_only in Hsub.
Qed.

Lemma measurements_precondition_witness :
  (fst (precipitation (Sample.world_of Sample.empty_store)) = Raise TypeError
   /\ fst (tobs StableOrder.sort_desc (Sample.world_of Sample.empty_store))
      = Raise IndexError)
  /\ measurements (engine (Sample.world_of Sample.two_stations)) <> []
  /\ dates_well_formed (engine (Sample.world_of Sample.two_stations))
  /\ (exists d : string,
         recent_date_query (engine (Sample.world_of Sample.two_stations))
         = Some d)
  /\ (exists (d : string) (t : datetime),
         recent_date_query (engine (Sample.world_of Sample.two_stations)) = Some d
         /\ strptime (Some d) = Return t).
Proof.
  assert (Hne : measurements (engine (Sample.world_of Sample.two_stations)) <> []).
  { cbn. discriminate. }
  assert (Hwf : dates_well_formed (engine (Sample.world_of Sample.two_stations))).
  { unfold dates_well_formed. cbn. repeat constructor. }
  split.
  - apply (proj1 (measurements_precondition StableOrder.sort_desc
                    (Sample.world_of Sample.empty_store) sort_desc_perm)).
    reflexivity.
  - split; [exact Hne|]. split; [exact Hwf|].
    destruct (proj2 (measurements_precondition StableOrder.sort_desc
                       (Sample.world_of Sample.two_stations) sort_desc_perm)
                    Hne)
      as [Hdate [_ [_ Hparse]]].
    split; [exact Hdate|].
    exact (proj1 (Hparse Hwf)).
Defined.

(** C10, as stated, fails: a table whose one measurement is dated
    2017-08-32 is not empty, yet the date parse raises ValueError in both
    handlers. *)
Lemma nonempty_table_date_parse_fails :
  measurements (engine (Sample.world_of Edge.day_32)) <> []
  /\ recent_date_query Edge.day_32 = Some "2017-08-32"
  /\ strptime (Some "2017-08-32") = Raise ValueError
  /\ fst (precipitation (Sample.world_of Edge.day_32)) = Raise ValueError
  /\ fst (tobs StableOrder.sort_desc (Sample.world_of Edge.day_32))
     = Raise ValueError.
Proof.
  split; [cbn; discriminate|].
  repeat split; vm_compute; reflexivity.
Qed.

(** ** Sessions *)

(** A handler that answers has released the session it opened. *)
Lemma session_released_on_return :
  forall (order_by_count_desc : list (string * nat) -> list (string * nat))
         (r : request) (w : World) (a : response),
    ~ In (next_session w) (open_sessions w) ->
    fst (dispatch order_by_count_desc r w) = Return a ->
    open_sessions (snd (dispatch order_by_count_desc r w)) = open_sessions w.
Proof.
  intros order r w a Hfresh.
  assert (Hrem : remove Nat.eq_dec (next_session w)
                        (next_session w :: open_sessions w)
                 = open_sessions w).
  { cbn [remove]. destruct (Nat.eq_dec (next_session w) (next_session w));
      [|congruence]. now apply notin_remove. }
  destruct r; cbn [dispatch];
    unfold homepage, precipitation, all_stations, tobs, start_date,
      start_end_date, start_query, start_end_query, aggregate_row;
    run_handler; cbn [getitem0]; outcome_cases;
    intro H; try discriminate H; try exact Hrem; reflexivity.
Qed.

(** C7: the session is not released on every path.  On a store without
    measurements [precipitation] raises in [strptime] and [tobs] raises on
    [most_active_stations[0]], both before [session.close()]: the session
    opened by the handler is still open afterwards. *)
Theorem session_left_open_on_error :
  open_sessions (Sample.world_of Sample.empty_store) = []
  /\ precipitation (Sample.world_of Sample.empty_store)
     = (Raise TypeError, mk_world Sample.empty_store [0%nat] 1)
  /\ tobs StableOrder.sort_desc (Sample.world_of Sample.empty_store)
     = (Raise IndexError, mk_world Sample.empty_store [0%nat] 1).
Proof.
  repeat split.
Qed.

(** ** Dictionaries *)

Section Dictionaries.

Context {V : Type}.

Lemma get_setitem :
  forall (k k' : string) (v : V) (d : Dict.t V),
    Dict.get k (Dict.setitem k' v d)
    = if String.eqb k' k then Some v else Dict.get k d.
Proof.
  intros k k' v d. induction d as [|[k0 v0] r IH].
  - cbn. reflexivity.
  - cbn [Dict.setitem]. destruct (String.eqb_spec k0 k') as [->|Hne].
    + cbn [Dict.get]. destruct (String.eqb k' k); reflexivity.
    + cbn [Dict.get]. destruct (String.eqb_spec k0 k) as [->|Hne'].
      * destruct (String.eqb_spec k' k); [congruence | reflexivity].
      * exact IH.
Qed.

Lemma get_fold_setitem :
  forall (k : string) (rows : list (string * V)) (d : Dict.t V),
    Dict.get k (fold_left (fun d kv => Dict.setitem (fst kv) (snd kv) d) rows d)
    = match last_value k rows with
      | Some v => Some v
      | None => Dict.get k d
      end.
Proof.
  intros k rows. induction rows as [|[k' v] r IH]; intro d; [reflexivity|].
  cbn [fold_left last_value fst snd]. rewrite IH.
  destruct (last_value k r); [reflexivity|].
  rewrite get_setitem. destruct (String.eqb k' k); reflexivity.
Qed.

(** In [{k: v for k, v in rows}] the last row of a key wins. *)
Lemma get_comprehension :
  forall (k : string) (rows : list (string * V)),
    Dict.get k (Dict.comprehension rows) = last_value k rows.
Proof.
  intros k rows. unfold Dict.comprehension. rewrite get_fold_setitem.
  destruct (last_value k rows); reflexivity.
Qed.

Lemma last_value_none :
  forall (k : string) (rows : list (string * V)),
    last_value k rows = None <-> ~ In k (map fst rows).
Proof.
  intros k rows. induction rows as [|[k' v] r IH]; [cbn; tauto|].
  cbn [last_value map fst In].
  destruct (last_value k r) as [x|].
  - split; [discriminate|]. intro H. exfalso.
    assert (Hr : ~ In k (map fst r)) by tauto.
    apply IH in Hr. discriminate.
  - destruct (String.eqb_spec k' k) as [->|Hne].
    + split; [discriminate | tauto].
    + split; [|reflexivity]. intros _ [H|H]; [congruence|].
      now apply (proj1 IH).
Qed.

End Dictionaries.

(** The answer of [precipitation], key by key: a date is a key when a row
    passed the filter of the query, and its value is that of the last such
    row. *)
Lemma precipitation_last_row_wins :
  forall (w : World) (d : string) (t last_year_date : datetime) (k : string),
    recent_date_query (engine w) = Some d ->
    strptime (Some d) = Return t ->
    sub_days t 365 = Return last_year_date ->
    field k (fst (precipitation w))
    = last_value k (map (fun r => (fst r, json_of_number (snd r)))
                        (data_last_year_query last_year_date (engine w))).
Proof.
  intros w d t c k Hd Ht Hc.
  rewrite (precipitation_run w d t Hd Ht), Hc. cbn [fst field].
  apply get_comprehension.
Qed.

(** ** The bound of the date filter, as a text *)

Section BoundText.

Lemma ascii_compare_refl : forall a : ascii, Ascii.compare a a = Eq.
Proof.
  intro a. unfold Ascii.compare. apply N.compare_refl.
Qed.

(** A text extended by at least one character is greater than the text. *)
Lemma extended_text_greater :
  forall (p : string) (c : ascii) (r : string),
    String.compare (p ++ String c r) p = Gt.
Proof.
  induction p as [|a p IH]; intros c r; cbn [append String.compare].
  - reflexivity.
  - rewrite ascii_compare_refl. apply IH.
Qed.

Lemma compare_extended_same_length :
  forall (p d : string) (c : ascii) (r : string),
    String.length p = String.length d ->
    String.compare (p ++ String c r) d
    = match String.compare p d with
      | Eq => Gt
      | other => other
      end.
Proof.
  induction p as [|a p IH]; intros [|b d] c r Hlen; try discriminate Hlen.
  - reflexivity.
  - cbn [append String.compare].
    destruct (Ascii.compare a b); [|reflexivity|reflexivity].
    apply IH. now injection Hlen.
Qed.

Lemma length_append :
  forall a b : string,
    String.length (a ++ b) = (String.length a + String.length b)%nat.
Proof.
  induction a as [|c a IH]; intro b; cbn [append String.length];
    [reflexivity | now rewrite IH].
Qed.

Lemma zero_padded_length :
  forall (width : nat) (n : Z), String.length (zero_padded width n) = width.
Proof.
  induction width as [|w IH]; intro n; cbn [zero_padded]; [reflexivity|].
  rewrite length_append, IH. cbn. lia.
Qed.

Lemma isoformat_date_length :
  forall t : datetime, String.length (isoformat_date t) = 10%nat.
Proof.
  intro t. unfold isoformat_date.
  rewrite !length_append, !zero_padded_length. reflexivity.
Qed.

(** The row of the day the bound names never passes [date >= bound]. *)
Lemma cutoff_day_fails_filter :
  forall t : datetime, Text.ge (isoformat_date t) (bind_text t) = false.
Proof.
  intro t. unfold Text.ge, String.leb, bind_text.
  change " 00:00:00.000000" with (String " " "00:00:00.000000").
  rewrite extended_text_greater. reflexivity.
Qed.

(** A date of ten characters passes [date >= bound] exactly when it is
    strictly greater than the day the bound names. *)
Lemma filter_keeps_later_days :
  forall (t : datetime) (d : string),
    String.length d = 10%nat ->
    Text.ge d (bind_text t) = String.ltb (isoformat_date t) d.
Proof.
  intros t d Hlen. unfold Text.ge, String.leb, String.ltb, bind_text.
  change " 00:00:00.000000" with (String " " "00:00:00.000000").
  rewrite compare_extended_same_length
    by (rewrite isoformat_date_length; now symmetry).
  destruct (String.compare (isoformat_date t) d); reflexivity.
Qed.

End BoundText.

(** ** The day one year before the last day *)

(** C1: the store holds a measurement on the last day, 2017-08-23, and one
    on 2016-08-23, the day 365 days earlier.  The comparison the query makes
    is one of texts, the date column against the bound [datetime]
    parameter, and "2016-08-23" is a proper prefix of
    "2016-08-23 00:00:00.000000": the answer has no key for the day the
    cutoff names. *)
Theorem precipitation_drops_cutoff_day :
  recent_date_query Sample.year_apart = Some "2017-08-23"
  /\ strptime (Some "2017-08-23") = Return (mk_datetime 2017 8 23)
  /\ sub_days (mk_datetime 2017 8 23) 365 = Return (mk_datetime 2016 8 23)
  /\ isoformat_date (mk_datetime 2016 8 23) = "2016-08-23"
  /\ In "2016-08-23" (map Measurement.date (measurements Sample.year_apart))
  /\ Text.ge "2016-08-23" (bind_text (mk_datetime 2016 8 23)) = false
  /\ fst (precipitation (Sample.world_of Sample.year_apart))
     = Return (Json (JDict [("2017-08-23", JNum 0)]))
  /\ field "2016-08-23" (fst (precipitation (Sample.world_of Sample.year_apart)))
     = None.
Proof.
  repeat split; try (vm_compute; reflexivity).
  cbn. tauto.
Qed.

(** C2: on the same store, whose only station is the most active one, the
    observation of 2016-08-23 is missing from the answer of [tobs] although
    it lies exactly 365 days before that station's last measurement. *)
Theorem tobs_drops_cutoff_day :
  ordered_stations_query StableOrder.sort_desc Sample.year_apart
  = [("USC00519281", 2%nat)]
  /\ most_recent_date_query "USC00519281" Sample.year_apart = Some "2017-08-23"
  /\ sub_days (mk_datetime 2017 8 23) 365 = Return (mk_datetime 2016 8 23)
  /\ In (Sample.row "USC00519281" "2016-08-23" (Some (15 # 10)) 77)
        (measurements Sample.year_apart)
  /\ fst (tobs StableOrder.sort_desc (Sample.world_of Sample.year_apart))
     = Return (Json (JList [JDict [("date", JStr "2017-08-23");
                                   ("temperature", JNum 81)]])).
Proof.
  repeat split; try (vm_compute; reflexivity).
  cbn. tauto.
Qed.


(* ================================================================== *)
(** * Further properties of the handlers *)

(** ** Sessions, request by request *)

Lemma dispatch_world_cases :
  forall (order_by_count_desc : list (string * nat) -> list (string * nat))
         (r : request) (w : World),
    (r = GET_homepage /\ snd (dispatch order_by_count_desc r w) = w)
    \/ snd (dispatch order_by_count_desc r w) = released w
    \/ ((r = GET_precipitation \/ r = GET_tobs)
        /\ (exists e, fst (dispatch order_by_count_desc r w) = Raise e)
        /\ snd (dispatch order_by_count_desc r w) = left_open w).
Proof.
  intros order r w. unfold released, left_open.
  destruct r; cbn [dispatch];
    unfold homepage, precipitation, all_stations, tobs, start_date,
      start_end_date, start_query, start_end_query, aggregate_row;
    run_handler; cbn [getitem0]; outcome_cases; eauto 7.
Qed.

Lemma released_sessions :
  forall w : World,
    sessions_known w -> open_sessions (released w) = open_sessions w.
Proof.
  intros w Hknown. unfold released. cbn [open_sessions remove].
  destruct (Nat.eq_dec (next_session w) (next_session w)); [|congruence].
  apply notin_remove. intro Hin.
  unfold sessions_known in Hknown. rewrite Forall_forall in Hknown.
  specialize (Hknown _ Hin). lia.
Qed.

Lemma sessions_known_step :
  forall (w : World) (l : list nat),
    sessions_known w ->
    (forall s, In s l -> s = next_session w \/ In s (open_sessions w)) ->
    sessions_known (mk_world (engine w) l (S (next_session w))).
Proof.
  intros w l Hknown Hl. unfold sessions_known in *.
  rewrite Forall_forall in *. cbn [open_sessions next_session].
  intros s Hs. destruct (Hl s Hs) as [->|Hin]; [lia|].
  specialize (Hknown s Hin). lia.
Qed.

(** X1: a handler never touches the sessions of others.  In a world whose
    open sessions were all handed out before, after any request every
    session that was open is still open, the only session that can have
    been added is the one the handler opened itself, the session counter
    moved by at most one, and the world is again of that kind. *)
Theorem dispatch_keeps_other_sessions :
  forall (order_by_count_desc : list (string * nat) -> list (string * nat))
         (r : request) (w : World),
    sessions_known w ->
    sessions_known (snd (dispatch order_by_count_desc r w))
    /\ (forall s, In s (open_sessions w) ->
                  In s (open_sessions (snd (dispatch order_by_count_desc r w))))
    /\ (forall s, In s (open_sessions (snd (dispatch order_by_count_desc r w))) ->
                  s = next_session w \/ In s (open_sessions w))
    /\ (next_session w
        <= next_session (snd (dispatch order_by_count_desc r w))
        <= S (next_session w))%nat.
Proof.
  intros order r w Hknown.
  destruct (dispatch_world_cases order r w) as [[_ Hw]|[Hw|[_ [_ Hw]]]];
    rewrite Hw.
  - repeat split; auto.
  - pose proof (released_sessions w Hknown) as Hrel.
    split; [|rewrite Hrel; cbn [released next_session]; repeat split; auto].
    unfold released. apply sessions_known_step; [exact Hknown|].
    intros s Hs. apply in_remove in Hs. destruct Hs as [[Hs|Hs] _]; auto.
  - split; [|cbn [left_open open_sessions next_session In];
             repeat split; auto; intuition].
    unfold left_open. apply sessions_known_step; [exact Hknown|].
    cbn [In]. intuition.
Qed.

Lemma dispatch_keeps_other_sessions_witness :
  sessions_known (mk_world Sample.empty_store [3; 1]%nat 5)
  /\ sessions_known
       (snd (dispatch StableOrder.sort_desc GET_tobs
               (mk_world Sample.empty_store [3; 1]%nat 5)))
  /\ open_sessions
       (snd (dispatch StableOrder.sort_desc GET_tobs
               (mk_world Sample.empty_store [3; 1]%nat 5)))
     = [5; 3; 1]%nat.
Proof.
  assert (Hknown : sessions_known (mk_world Sample.empty_store [3; 1]%nat 5)).
  { unfold sessions_known. cbn. repeat constructor. }
  split; [exact Hknown|]. split.
  - exact (proj1 (dispatch_keeps_other_sessions StableOrder.sort_desc GET_tobs
                    (mk_world Sample.empty_store [3; 1]%nat 5) Hknown)).
  - reflexivity.
Defined.

(** X2: the stations route, both summary routes and the root route hand the
    sessions back as they found them in every outcome, the TypeError of a
    summary without a match included: these handlers close the session
    before they shape the answer. *)
Theorem session_released_in_every_outcome :
  forall (order_by_count_desc : list (string * nat) -> list (string * nat))
         (r : request) (w : World),
    r <> GET_precipitation ->
    r <> GET_tobs ->
    sessions_known w ->
    open_sessions (snd (dispatch order_by_count_desc r w)) = open_sessions w.
Proof.
  intros order r w Hp Ht Hknown.
  destruct (dispatch_world_cases order r w) as [[_ Hw]|[Hw|[[Hr|Hr] _]]];
    try contradiction; rewrite Hw; [reflexivity|].
  now apply released_sessions.
Qed.

Lemma session_released_in_every_outcome_witness :
  fst (dispatch StableOrder.sort_desc (GET_start "2018-01-01")
         (mk_world Sample.two_stations [3; 1]%nat 5))
  = Raise TypeError
  /\ open_sessions
       (snd (dispatch StableOrder.sort_desc (GET_start "2018-01-01")
               (mk_world Sample.two_stations [3; 1]%nat 5)))
     = [3; 1]%nat.
Proof.
  split; [vm_compute; reflexivity|].
  apply (session_released_in_every_outcome StableOrder.sort_desc
           (GET_start "2018-01-01")
           (mk_world Sample.two_stations [3; 1]%nat 5)).
  - discriminate.
  - discriminate.
  - unfold sessions_known. cbn. repeat constructor.
Defined.

(** X3: whenever the precipitation or the tobs handler raises, whatever the
    exception, the session it opened stays open: both handlers close the
    session only after their last query. *)
Theorem failed_query_handler_leaves_session_open :
  forall (order_by_count_desc : list (string * nat) -> list (string * nat))
         (r : request) (w : World) (e : exn),
    r = GET_precipitation \/ r = GET_tobs ->
    fst (dispatch order_by_count_desc r w) = Raise e ->
    open_sessions (snd (dispatch order_by_count_desc r w))
    = next_session w :: open_sessions w.
Proof.
  intros order r w e Hr.
  destruct Hr as [-> | ->]; cbn [dispatch];
    unfold precipitation, tobs; run_handler; cbn [getitem0]; outcome_cases;
    intro H; try discriminate H; reflexivity.
Qed.

Lemma failed_query_handler_leaves_session_open_witness :
  fst (dispatch StableOrder.sort_desc GET_precipitation
         (mk_world Sample.empty_store [3; 1]%nat 5))
  = Raise TypeError
  /\ open_sessions
       (snd (dispatch StableOrder.sort_desc GET_precipitation
               (mk_world Sample.empty_store [3; 1]%nat 5)))
     = [5; 3; 1]%nat.
Proof.
  split; [reflexivity|].
  apply (failed_query_handler_leaves_session_open StableOrder.sort_desc
           GET_precipitation (mk_world Sample.empty_store [3; 1]%nat 5)
           TypeError).
  - now left.
  - reflexivity.
Defined.

(** ** The summary routes, match or no match *)

(** X4: a summary route answers exactly when some measurement matches its
    date filter; when none does it raises TypeError, and it raises nothing
    else. *)
Theorem summary_answers_iff_match :
  forall (q : summary_request) (w : World),
    ((exists a : response, fst (summary_route q w) = Return a)
     <-> matching q (engine w) <> [])
    /\ (fst (summary_route q w) = Raise TypeError
        <-> matching q (engine w) = [])
    /\ (forall e : exn, fst (summary_route q w) = Raise e -> e = TypeError).
Proof.
  intros q w. destruct (matching q (engine w)) as [|m rows] eqn:Hrows.
  - rewrite (summary_route_no_match q w Hrows). cbn [fst].
    split; [|split].
    + split; [intros [a Ha]; discriminate Ha | congruence].
    + tauto.
    + intros e He. now injection He.
  - assert (Hne : matching q (engine w) <> []) by (rewrite Hrows; discriminate).
    destruct (summary_route_matching q w Hne) as [tmin [tmax [_ [_ Hrun]]]].
    rewrite Hrun. split; [|split].
    + split; [discriminate | eauto].
    + split; discriminate.
    + intros e He. discriminate He.
Qed.

Section TextOrder.

Lemma ascii_compare_trans :
  forall (x y z : ascii) (c : comparison),
    Ascii.compare x y = c -> Ascii.compare y z = c -> c <> Eq ->
    Ascii.compare x z = c.
Proof.
  intros x y z c. unfold Ascii.compare.
  destruct (N.compare_spec (N_of_ascii x) (N_of_ascii y));
    destruct (N.compare_spec (N_of_ascii y) (N_of_ascii z));
    intros <- Hc Hne; try congruence.
  - apply N.compare_lt_iff. lia.
  - apply N.compare_gt_iff. lia.
Qed.

Lemma ascii_compare_eq :
  forall x y : ascii, Ascii.compare x y = Eq -> x = y.
Proof. exact Ascii.compare_eq_iff. Qed.

(** The order of TEXT values is transitive. *)
Lemma text_le_trans :
  forall a b c : string,
    Text.le a b = true -> Text.le b c = true -> Text.le a c = true.
Proof.
  unfold Text.le, String.leb.
  induction a as [|x a IH]; intros [|y b] [|z c]; cbn [String.compare];
    try (intros; reflexivity); try (intros; discriminate).
  destruct (Ascii.compare x y) eqn:Hxy; [|intro|intros; discriminate].
  - apply ascii_compare_eq in Hxy. subst y.
    destruct (Ascii.compare x z); [apply IH | reflexivity | intros; discriminate].
  - destruct (Ascii.compare y z) eqn:Hyz; [|intro|intros; discriminate].
    + apply ascii_compare_eq in Hyz. subst z. now rewrite Hxy.
    + now rewrite (ascii_compare_trans x y z Lt Hxy Hyz) by discriminate.
Qed.

End TextOrder.

(** X5: with [end] before [start] in the order of texts no measurement can
    match, whatever the store holds: the start/end route raises
    TypeError. *)
Theorem start_end_date_reversed_bounds :
  forall (start end_ : string) (w : World),
    Text.le start end_ = false ->
    fst (start_end_date start end_ w) = Raise TypeError.
Proof.
  intros start end_ w Hrev.
  assert (Hnone : matching (Start_end start end_) (engine w) = []).
  { cbn [matching]. unfold in_window.
    destruct (filter _ (measurements (engine w))) as [|m rows] eqn:Hrows;
      [reflexivity|].
    assert (Hin : In m (m :: rows)) by now left.
    rewrite <- Hrows in Hin. apply filter_In in Hin.
    destruct Hin as [_ Hin]. apply andb_true_iff in Hin.
    destruct Hin as [H1 H2].
    rewrite (text_le_trans _ _ _ H1 H2) in Hrev. discriminate. }
  change (start_end_date start end_ w)
    with (summary_route (Start_end start end_) w).
  rewrite (summary_route_no_match _ w Hnone). reflexivity.
Qed.

Lemma start_end_date_reversed_bounds_witness :
  Text.le "2017-08-23" "2017-08-21" = false
  /\ fst (start_end_date "2017-08-23" "2017-08-21"
            (Sample.world_of Sample.two_stations))
     = Raise TypeError.
Proof.
  split; [reflexivity|].
  apply (start_end_date_reversed_bounds "2017-08-23" "2017-08-21"
           (Sample.world_of Sample.two_stations)).
  reflexivity.
Defined.

Lemma get_before_last_item :
  forall (V : Type) (k k' : string) (v : V) (d : Dict.t V),
    k <> k' -> Dict.get k (d ++ [(k', v)]) = Dict.get k d.
Proof.
  intros V k k' v d Hne. induction d as [|[k0 v0] r IH]; cbn [app Dict.get].
  - destruct (String.eqb_spec k' k); [congruence | reflexivity].
  - destruct (String.eqb k0 k); [reflexivity | exact IH].
Qed.

(** X6: when no measurement is dated after [end], the start/end route gives
    the same [min], [avg], [max] and [start] as the start route, and fails
    when the start route fails: the upper bound only ever removes rows. *)
Theorem start_end_date_agrees_with_start_date :
  forall (start end_ : string) (w : World),
    Forall (fun m => Text.le (Measurement.date m) end_ = true)
           (measurements (engine w)) ->
    (forall k : string,
        k <> "end" ->
        field k (fst (start_end_date start end_ w))
        = field k (fst (start_date start w)))
    /\ (forall e : exn,
          fst (start_end_date start end_ w) = Raise e
          <-> fst (start_date start w) = Raise e).
Proof.
  intros start end_ w Hall.
  assert (Hq : start_end_query start end_ (engine w)
               = start_query start (engine w)).
  { unfold start_end_query, start_query. f_equal.
    apply forallb_filter_id. apply forallb_forall. intros m Hm.
    apply filter_In in Hm. destruct Hm as [Hm _].
    rewrite Forall_forall in Hall. now apply Hall. }
  unfold start_end_date, start_date. run_handler. rewrite Hq.
  unfold start_query, aggregate_row. cbn [getitem0].
  destruct (Sql.func_avg _) as [avg|]; cbn [round2 fst].
  - split; [|intro e; split; discriminate].
    intros k Hk. cbn [field jsonify].
    change [("min", json_of_number (Sql.func_min (map Measurement.tobs
              (filter (fun m => Text.ge (Measurement.date m) start)
                      (measurements (engine w))))));
            ("avg", JNum (round_digits avg 2));
            ("max", json_of_number (Sql.func_max (map Measurement.tobs
              (filter (fun m => Text.ge (Measurement.date m) start)
                      (measurements (engine w))))));
            ("start", JStr start); ("end", JStr end_)]
      with ([("min", json_of_number (Sql.func_min (map Measurement.tobs
              (filter (fun m => Text.ge (Measurement.date m) start)
                      (measurements (engine w))))));
            ("avg", JNum (round_digits avg 2));
            ("max", json_of_number (Sql.func_max (map Measurement.tobs
              (filter (fun m => Text.ge (Measurement.date m) start)
                      (measurements (engine w))))));
            ("start", JStr start)] ++ [("end", JStr end_)]).
    now apply get_before_last_item.
  - split; [reflexivity | tauto].
Qed.

Lemma start_end_date_agrees_with_start_date_witness :
  Forall (fun m => Text.le (Measurement.date m) "2017-12-31" = true)
         (measurements (engine (Sample.world_of Sample.two_stations)))
  /\ field "avg" (fst (start_end_date "2017-08-22" "2017-12-31"
                         (Sample.world_of Sample.two_stations)))
     = field "avg" (fst (start_date "2017-08-22"
                           (Sample.world_of Sample.two_stations))).
Proof.
  assert (Hall : Forall (fun m => Text.le (Measurement.date m) "2017-12-31" = true)
                   (measurements (engine (Sample.world_of Sample.two_stations)))).
  { cbn. repeat constructor. }
  split; [exact Hall|].
  apply (proj1 (start_end_date_agrees_with_start_date "2017-08-22" "2017-12-31"
                  (Sample.world_of Sample.two_stations) Hall)).
  discriminate.
Defined.

(** ** The stations route on any table *)

Lemma nodup_length_le :
  forall l : list string, (List.length (nodup string_dec l) <= List.length l)%nat.
Proof.
  induction l as [|a r IH]; cbn [nodup List.length]; [lia|].
  destruct (in_dec string_dec a r); cbn [List.length]; lia.
Qed.

Lemma nodup_length_eq :
  forall l : list string,
    List.length (nodup string_dec l) = List.length l -> NoDup l.
Proof.
  induction l as [|a r IH]; cbn [nodup List.length]; intro H; [constructor|].
  pose proof (nodup_length_le r) as Hle.
  destruct (in_dec string_dec a r) as [Hin|Hout]; cbn [List.length] in H;
    [lia|].
  constructor; [exact Hout | apply IH; lia].
Qed.

(** X7: the stations route never fails and answers with one code per row of
    the station table: the answer is never shorter than the number of
    distinct codes, and as long as that number exactly when no code is
    stored twice. *)
Theorem all_stations_one_code_per_row :
  forall w : World,
    exists codes : list string,
      codes = map Station.station (stations (engine w))
      /\ fst (all_stations w) = Return (Json (JList (map JStr codes)))
      /\ List.length codes = List.length (stations (engine w))
      /\ (distinct_station_count (engine w) <= List.length codes)%nat
      /\ (List.length codes = distinct_station_count (engine w)
          <-> NoDup codes).
Proof.
  intro w. exists (map Station.station (stations (engine w))).
  split; [reflexivity|]. split; [now rewrite all_stations_run|].
  split; [apply length_map|]. unfold distinct_station_count.
  split; [apply nodup_length_le|]. split.
  - intro H. apply nodup_length_eq. now symmetry.
  - intro H. now rewrite (nodup_fixed_point string_dec H).
Qed.

(** ** The dictionary of the precipitation route *)

Section DictionaryKeys.

Context {V : Type}.

Lemma keys_setitem :
  forall (k : string) (v : V) (d : Dict.t V),
    Dict.keys (Dict.setitem k v d)
    = if existsb (String.eqb k) (Dict.keys d) then Dict.keys d
      else Dict.keys d ++ [k].
Proof.
  intros k v d. unfold Dict.keys.
  induction d as [|[k' v'] r IH]; [reflexivity|].
  cbn [Dict.setitem map fst existsb].
  rewrite (String.eqb_sym k k').
  destruct (String.eqb k' k); cbn [orb map fst]; [reflexivity|].
  rewrite IH. destruct (existsb (String.eqb k) (map fst r)); reflexivity.
Qed.

Lemma nodup_keys_setitem :
  forall (k : string) (v : V) (d : Dict.t V),
    NoDup (Dict.keys d) -> NoDup (Dict.keys (Dict.setitem k v d)).
Proof.
  intros k v d H. rewrite keys_setitem.
  destruct (existsb (String.eqb k) (Dict.keys d)) eqn:E; [exact H|].
  apply NoDup_app; [exact H | repeat constructor; intros [] | ].
  intros x Hx [<-|[]]. apply existsb_eqb_in in Hx. congruence.
Qed.

Lemma nodup_keys_fold :
  forall (rows : list (string * V)) (d : Dict.t V),
    NoDup (Dict.keys d) ->
    NoDup (Dict.keys
             (fold_left (fun d kv => Dict.setitem (fst kv) (snd kv) d) rows d)).
Proof.
  induction rows as [|kv r IH]; intros d H; cbn [fold_left]; [exact H|].
  apply IH. now apply nodup_keys_setitem.
Qed.

(** A dictionary made by a comprehension holds every key once. *)
Lemma nodup_keys_comprehension :
  forall rows : list (string * V), NoDup (Dict.keys (Dict.comprehension rows)).
Proof.
  intro rows. unfold Dict.comprehension. apply nodup_keys_fold. constructor.
Qed.

Lemma get_none_iff :
  forall (k : string) (d : Dict.t V),
    Dict.get k d = None <-> ~ In k (Dict.keys d).
Proof.
  intros k d. unfold Dict.keys.
  induction d as [|[k' v'] r IH]; cbn [Dict.get map fst In]; [tauto|].
  destruct (String.eqb_spec k' k) as [->|Hne].
  - split; [discriminate | tauto].
  - rewrite IH. tauto.
Qed.

Lemma keys_comprehension :
  forall (k : string) (rows : list (string * V)),
    In k (Dict.keys (Dict.comprehension rows)) <-> In k (map fst rows).
Proof.
  intros k rows.
  pose proof (get_none_iff k (Dict.comprehension rows)) as H1.
  pose proof (last_value_none k rows) as H2.
  rewrite get_comprehension in H1.
  destruct (in_dec string_dec k (Dict.keys (Dict.comprehension rows)));
    destruct (in_dec string_dec k (map fst rows)); tauto.
Qed.

Lemma last_value_last :
  forall (k : string) (v : V) (l1 l2 : list (string * V)),
    ~ In k (map fst l2) -> last_value k (l1 ++ (k, v) :: l2) = Some v.
Proof.
  intros k v l1 l2 Hout. induction l1 as [|[k' v'] r IH].
  - cbn [app last_value]. apply last_value_none in Hout. rewrite Hout.
    now rewrite String.eqb_refl.
  - cbn [app last_value]. now rewrite IH.
Qed.

End DictionaryKeys.

Lemma precipitation_items :
  forall (cutoff : datetime) (db : Store),
    map (fun r => (fst r, json_of_number (snd r)))
        (data_last_year_query cutoff db)
    = map (fun m => (Measurement.date m, json_of_number (Measurement.prcp m)))
          (filter (fun m => Text.ge (Measurement.date m) (bind_text cutoff))
                  (measurements db)).
Proof.
  intros cutoff db. unfold data_last_year_query. rewrite map_map. reflexivity.
Qed.

(** X8: on a store of well-formed dates, whenever the precipitation route
    answers, the answer is an object that holds each key once; its keys are
    the dates of the measurements that pass the date filter of the query,
    the cutoff being the last date of the table moved back 365 days; and
    under each date stands the precipitation of the last such measurement
    in table order, null when it was not recorded. *)
Theorem precipitation_answer_by_date :
  forall (w : World) (a : response),
    dates_well_formed (engine w) ->
    fst (precipitation w) = Return a ->
    exists (d : string) (t cutoff : datetime) (items : Dict.t json),
      recent_date_query (engine w) = Some d
      /\ strptime (Some d) = Return t
      /\ sub_days t 365 = Return cutoff
      /\ a = Json (JDict items)
      /\ NoDup (Dict.keys items)
      /\ (forall k : string,
            In k (Dict.keys items)
            <-> exists m : Measurement.t,
                In m (measurements (engine w))
                /\ Measurement.date m = k
                /\ Text.ge k (bind_text cutoff) = true)
      /\ (forall (rows1 : list Measurement.t) (m : Measurement.t)
                 (rows2 : list Measurement.t),
            filter (fun m => Text.ge (Measurement.date m) (bind_text cutoff))
                   (measurements (engine w))
            = rows1 ++ m :: rows2 ->
            (forall m', In m' rows2 -> Measurement.date m' <> Measurement.date m) ->
            Dict.get (Measurement.date m) items
            = Some (json_of_number (Measurement.prcp m))).
Proof.
  intros w a _. unfold precipitation. run_handler.
  destruct (recent_date_query (engine w)) as [d|] eqn:Hd;
    [|cbn; discriminate].
  destruct (strptime (Some d)) as [t|e] eqn:Ht; [|cbn; discriminate].
  destruct (sub_days t 365) as [cutoff|e] eqn:Hc; [|cbn; discriminate].
  cbn [fst]. intro H. injection H as <-.
  exists d, t, cutoff.
  eexists. split; [reflexivity|]. split; [exact Ht|]. split; [exact Hc|].
  split; [reflexivity|]. rewrite precipitation_items.
  split; [apply nodup_keys_comprehension|]. split.
  - intro k. rewrite keys_comprehension, map_map. cbn [fst].
    rewrite in_map_iff. split.
    + intros [m [Hk Hm]]. apply filter_In in Hm. destruct Hm as [Hm Hp].
      exists m. subst k. auto.
    + intros [m [Hm [Hk Hp]]]. exists m. split; [exact Hk|].
      apply filter_In. subst k. auto.
  - intros rows1 m rows2 Hrows Hlast.
    rewrite get_comprehension, Hrows, map_app. cbn [map].
    apply last_value_last. rewrite map_map. cbn [fst].
    intro Hin. apply in_map_iff in Hin. destruct Hin as [m' [Hd' Hm']].
    exact (Hlast m' Hm' Hd').
Qed.

Lemma precipitation_answer_by_date_witness :
  dates_well_formed (engine (Sample.world_of Sample.two_stations))
  /\ exists (d : string) (t cutoff : datetime) (items : Dict.t json),
       recent_date_query (engine (Sample.world_of Sample.two_stations)) = Some d
       /\ strptime (Some d) = Return t
       /\ sub_days t 365 = Return cutoff
       /\ Json (JDict [("2017-08-21", JNull); ("2017-08-22", JNum (5 # 10));
                       ("2017-08-23", JNum (8 # 100))])
          = Json (JDict items)
       /\ NoDup (Dict.keys items).
Proof.
  assert (Hwf : dates_well_formed (engine (Sample.world_of Sample.two_stations))).
  { unfold dates_well_formed. cbn. repeat constructor. }
  split; [exact Hwf|].
  destruct (precipitation_answer_by_date
              (Sample.world_of Sample.two_stations)
              (Json (JDict [("2017-08-21", JNull); ("2017-08-22", JNum (5 # 10));
                            ("2017-08-23", JNum (8 # 100))]))
              Hwf)
    as [d [t [cutoff [items [H1 [H2 [H3 [H4 [H5 _]]]]]]]]].
  - vm_compute. reflexivity.
  - exists d, t, cutoff, items. auto.
Defined.

(** ** The tobs route and the order of the store *)

Lemma reverse_sort_desc_perm :
  forall l : list (string * nat), Permutation l (ReverseOrder.sort_desc l).
Proof.
  intro l. unfold ReverseOrder.sort_desc.
  apply perm_trans with (rev l); [apply Permutation_rev | apply sort_desc_perm].
Qed.

Lemma reverse_sort_desc_sorted :
  forall l : list (string * nat),
    StronglySorted descending (ReverseOrder.sort_desc l).
Proof.
  intro l. apply sort_desc_sorted.
Qed.

(** X9: on a store of well-formed dates, whenever the tobs route answers,
    it answers about one station, a station with at least one measurement
    and with no fewer measurements than any other; the answer lists, in
    table order, one object per measurement of that station that passes
    the date filter, the cutoff being the last date of that station moved
    back 365 days. *)
Theorem tobs_answer_most_active :
  forall (order_by_count_desc : list (string * nat) -> list (string * nat))
         (w : World) (a : response),
    (forall l, Permutation l (order_by_count_desc l)) ->
    (forall l, StronglySorted descending (order_by_count_desc l)) ->
    dates_well_formed (engine w) ->
    fst (tobs order_by_count_desc w) = Return a ->
    exists (id d : string) (t cutoff : datetime),
      (forall k : string,
          (observation_count k (measurements (engine w))
           <= observation_count id (measurements (engine w)))%nat)
      /\ (0 < observation_count id (measurements (engine w)))%nat
      /\ most_recent_date_query id (engine w) = Some d
      /\ strptime (Some d) = Return t
      /\ sub_days t 365 = Return cutoff
      /\ a = Json (JList
                 (map (fun m => JDict [("date", JStr (Measurement.date m));
                                       ("temperature", JNum (Measurement.tobs m))])
                      (filter (fun m =>
                                 String.eqb (Measurement.station m) id
                                 && Text.ge (Measurement.date m) (bind_text cutoff))
                              (measurements (engine w))))).
Proof.
  intros order w a Hperm Hsorted _.
  destruct (ordered_stations_query order (engine w)) as [|first rest] eqn:Hq.
  - rewrite (tobs_no_station order w Hq). discriminate.
  - assert (Hne : measurements (engine w) <> []).
    { intro Hempty. rewrite (ordered_stations_empty order Hperm _ Hempty) in Hq.
      discriminate. }
    destruct (ordered_stations_first order Hperm (engine w) Hne)
      as [first' [rest' [Hq' [Hcount Hpos]]]].
    rewrite Hq in Hq'. injection Hq' as <- <-.
    unfold tobs. run_handler. rewrite Hq. cbn [getitem0].
    destruct (most_recent_date_query (fst first) (engine w)) as [d|] eqn:Hd;
      [|cbn; discriminate].
    destruct (strptime (Some d)) as [t|e] eqn:Ht; [|cbn; discriminate].
    destruct (sub_days t 365) as [cutoff|e] eqn:Hc; [|cbn; discriminate].
    cbn [fst]. intro H. injection H as <-.
    exists (fst first), d, t, cutoff.
    split; [exact (first_station_most_active order Hperm Hsorted
                     (engine w) first rest Hq)|].
    split; [lia|]. split; [exact Hd|]. split; [exact Ht|].
    split; [exact Hc|].
    unfold temperature_data_query. rewrite map_map. reflexivity.
Qed.

Lemma tobs_answer_most_active_witness :
  dates_well_formed (engine (Sample.world_of Sample.two_stations))
  /\ exists (id d : string) (t cutoff : datetime),
       (forall k : string,
           (observation_count k (measurements (engine (Sample.world_of Sample.two_stations)))
            <= observation_count id
                 (measurements (engine (Sample.world_of Sample.two_stations))))%nat)
       /\ most_recent_date_query id (engine (Sample.world_of Sample.two_stations))
          = Some d
       /\ strptime (Some d) = Return t
       /\ sub_days t 365 = Return cutoff.
Proof.
  assert (Hwf : dates_well_formed (engine (Sample.world_of Sample.two_stations))).
  { unfold dates_well_formed. cbn. repeat constructor. }
  split; [exact Hwf|].
  destruct (tobs_answer_most_active StableOrder.sort_desc
              (Sample.world_of Sample.two_stations)
              (Json (JList
                 [JDict [("date", JStr "2017-08-21"); ("temperature", JNum 76)];
                  JDict [("date", JStr "2017-08-22"); ("temperature", JNum 78)];
                  JDict [("date", JStr "2017-08-23"); ("temperature", JNum 81)]]))
              sort_desc_perm sort_desc_sorted Hwf)
    as [id [d [t [cutoff [H1 [_ [H3 [H4 [H5 _]]]]]]]]].
  - vm_compute. reflexivity.
  - exists id, d, t, cutoff. auto.
Defined.

Lemma tobs_depends_on_first :
  forall (order1 order2 : list (string * nat) -> list (string * nat))
         (w : World) (first1 first2 : string * nat)
         (rest1 rest2 : list (string * nat)),
    ordered_stations_query order1 (engine w) = first1 :: rest1 ->
    ordered_stations_query order2 (engine w) = first2 :: rest2 ->
    fst first1 = fst first2 ->
    tobs order1 w = tobs order2 w.
Proof.
  intros order1 order2 w first1 first2 rest1 rest2 H1 H2 Hid.
  unfold tobs. run_handler. rewrite H1, H2. cbn [getitem0]. rewrite Hid.
  reflexivity.
Qed.

Lemma other_station_exists : forall id : string, exists k : string, k <> id.
Proof.
  intros [|c id]; [exists "x" | exists ""]; discriminate.
Qed.

(** X10: the order in which the store returns stations of equal count
    matters only for ties.  When one station has strictly more measurements
    than every other, the tobs route does the same under any two orderings
    that sort the groups by descending count. *)
Theorem tobs_independent_of_tie_order :
  forall (order1 order2 : list (string * nat) -> list (string * nat))
         (w : World) (id : string),
    (forall l, Permutation l (order1 l)) ->
    (forall l, StronglySorted descending (order1 l)) ->
    (forall l, Permutation l (order2 l)) ->
    (forall l, StronglySorted descending (order2 l)) ->
    (forall k : string,
        k <> id ->
        (observation_count k (measurements (engine w))
         < observation_count id (measurements (engine w)))%nat) ->
    tobs order1 w = tobs order2 w.
Proof.
  intros order1 order2 w id Hp1 Hs1 Hp2 Hs2 Hmost.
  assert (Hne : measurements (engine w) <> []).
  { intro Hempty. destruct (other_station_exists id) as [k Hk].
    specialize (Hmost k Hk). rewrite Hempty in Hmost.
    unfold observation_count in Hmost. cbn in Hmost. lia. }
  destruct (ordered_stations_first order1 Hp1 (engine w) Hne)
    as [first1 [rest1 [Hq1 _]]].
  destruct (ordered_stations_first order2 Hp2 (engine w) Hne)
    as [first2 [rest2 [Hq2 _]]].
  pose proof (first_station_most_active order1 Hp1 Hs1 (engine w) _ _ Hq1 id)
    as Hm1.
  pose proof (first_station_most_active order2 Hp2 Hs2 (engine w) _ _ Hq2 id)
    as Hm2.
  assert (H1 : fst first1 = id).
  { destruct (string_dec (fst first1) id) as [E|N]; [exact E|].
    specialize (Hmost _ N). lia. }
  assert (H2 : fst first2 = id).
  { destruct (string_dec (fst first2) id) as [E|N]; [exact E|].
    specialize (Hmost _ N). lia. }
  apply (tobs_depends_on_first order1 order2 w first1 first2 rest1 rest2 Hq1 Hq2).
  congruence.
Qed.

Lemma tobs_independent_of_tie_order_witness :
  tobs StableOrder.sort_desc (Sample.world_of Sample.two_stations)
  = tobs ReverseOrder.sort_desc (Sample.world_of Sample.two_stations).
Proof.
  apply (tobs_independent_of_tie_order StableOrder.sort_desc
           ReverseOrder.sort_desc (Sample.world_of Sample.two_stations)
           "USC00519281"
           sort_desc_perm sort_desc_sorted
           reverse_sort_desc_perm reverse_sort_desc_sorted).
  intros k Hk. unfold observation_count, Sample.world_of, Sample.two_stations,
    Sample.row.
  cbn [engine measurements filter Measurement.station].
  destruct (String.eqb_spec "USC00519281" k) as [E|_]; [congruence|].
  destruct (String.eqb "USC00519397" k); vm_compute; lia.
Defined.

(** ** The calendar behind the date filters *)

Section Calendar.

Local Open Scope Z_scope.

Lemma days_before_year_cycles :
  forall a b c e : Z,
    0 <= a -> 0 <= b <= 3 -> 0 <= c <= 24 -> 0 <= e <= 3 ->
    days_before_year (400 * a + 100 * b + 4 * c + e + 1)
    = 146097 * a + 36524 * b + 1461 * c + 365 * e.
Proof.
  intros a b c e Ha Hb Hc He. unfold days_before_year.
  Z.div_mod_to_equations. lia.
Qed.

Lemma is_leap_cycles :
  forall a b c e : Z,
    0 <= a -> 0 <= b <= 3 -> 0 <= c <= 24 -> 0 <= e <= 3 ->
    is_leap (400 * a + 100 * b + 4 * c + e + 1)
    = (e =? 3) && (negb (c =? 24) || (b =? 3)).
Proof.
  intros a b c e Ha Hb Hc He. unfold is_leap.
  destruct (Z.eqb_spec e 3), (Z.eqb_spec c 24), (Z.eqb_spec b 3);
    cbn [negb orb andb];
    repeat match goal with
           | |- context [(?x mod ?k =? 0)] =>
               destruct (Z.eqb_spec (x mod k) 0)
           end; cbn [negb orb andb]; try reflexivity;
    exfalso; Z.div_mod_to_equations; lia.
Qed.

(** The month and the day of the [r]-th day of a year, counted from 0. *)
Lemma month_of_day_of_year :
  forall (r : Z) (leapyear : bool),
    0 <= r < 365 + (if leapyear then 1 else 0) ->
    let m := Z.shiftr (r + 50) 5 in
    let preceding :=
      DAYS_BEFORE_MONTH m + (if (2 <? m) && leapyear then 1 else 0) in
    let md :=
      if r <? preceding
      then (m - 1,
            r - (preceding
                 - (DAYS_IN_MONTH (m - 1)
                    + (if (m - 1 =? 2) && leapyear then 1 else 0))) + 1)
      else (m, r - preceding + 1) in
    1 <= fst md <= 12
    /\ 1 <= snd md
            <= DAYS_IN_MONTH (fst md)
               + (if (fst md =? 2) && leapyear then 1 else 0)
    /\ DAYS_BEFORE_MONTH (fst md)
       + (if (2 <? fst md) && leapyear then 1 else 0) + snd md
       = r + 1.
Proof.
  intros r leapyear Hr. cbv zeta. rewrite Z.shiftr_div_pow2 by lia.
  change (2 ^ 5) with 32.
  assert (Hm : 1 <= (r + 50) / 32 <= 12)
    by (destruct leapyear; Z.div_mod_to_equations; lia).
  assert (Hb : 32 * ((r + 50) / 32) <= r + 50 < 32 * ((r + 50) / 32) + 32)
    by (Z.div_mod_to_equations; lia).
  set (m := (r + 50) / 32) in *.
  assert (Hcases : m = 1 \/ m = 2 \/ m = 3 \/ m = 4 \/ m = 5 \/ m = 6
                   \/ m = 7 \/ m = 8 \/ m = 9 \/ m = 10 \/ m = 11 \/ m = 12)
    by lia.
  clearbody m.
  repeat (destruct Hcases as [->|Hcases]); [.. | subst m];
    destruct leapyear;
    match goal with
    | |- context [r <? ?p] =>
        let v := eval vm_compute in p in
        change p with v; destruct (Z.ltb_spec r v)
    end;
    cbn [fst snd];
    repeat match goal with
           | |- context [DAYS_IN_MONTH ?x] =>
               let v := eval vm_compute in (DAYS_IN_MONTH x) in
               change (DAYS_IN_MONTH x) with v
           | |- context [DAYS_BEFORE_MONTH ?x] =>
               let v := eval vm_compute in (DAYS_BEFORE_MONTH x) in
               change (DAYS_BEFORE_MONTH x) with v
           | |- context [if ?c then 1 else 0] =>
               let v := eval vm_compute in c in
               change c with v; cbv iota
           end;
    lia.
Qed.

Lemma ordinal_cycles :
  forall n0 : Z,
    0 <= n0 <= 3652058 ->
    let a := n0 / 146097 in
    let r400 := n0 mod 146097 in
    let b := r400 / 36524 in
    let r100 := r400 mod 36524 in
    let c := r100 / 1461 in
    let r4 := r100 mod 1461 in
    let e := r4 / 365 in
    let r1 := r4 mod 365 in
    n0 = 146097 * a + 36524 * b + 1461 * c + 365 * e + r1
    /\ 0 <= a <= 24 /\ 0 <= b <= 4 /\ 0 <= c <= 24 /\ 0 <= e <= 4
    /\ 0 <= r1 < 365
    /\ (b = 4 -> c = 0 /\ e = 0 /\ r1 = 0)
    /\ (e = 4 -> r1 = 0 /\ c <= 23).
Proof.
  intros n0 Hn. cbv zeta. Z.div_mod_to_equations. lia.
Qed.

Ltac decide_conditions :=
  repeat match goal with
         | |- context [if ?c then _ else _] =>
             let v := eval vm_compute in c in
             change c with v; cbv iota
         end;
  change (DAYS_IN_MONTH 12) with 31;
  change (DAYS_BEFORE_MONTH 12) with 334.

Lemma ord2ymd_inverse :
  forall o : Z,
    1 <= o <= MAXORDINAL ->
    valid_date (ord2ymd o) /\ toordinal (ord2ymd o) = o.
Proof.
  intros o Ho. unfold MAXORDINAL in Ho.
  assert (Hn : 0 <= o - 1 <= 3652058) by lia.
  pose proof (ordinal_cycles (o - 1) Hn) as Hc. cbv zeta in Hc.
  unfold ord2ymd, DI400Y, DI100Y, DI4Y. cbv zeta.
  set (a := (o - 1) / 146097) in *.
  set (r400 := (o - 1) mod 146097) in *.
  set (b := r400 / 36524) in *.
  set (r100 := r400 mod 36524) in *.
  set (c := r100 / 1461) in *.
  set (r4 := r100 mod 1461) in *.
  set (e := r4 / 365) in *.
  set (r1 := r4 mod 365) in *.
  clearbody a b c e r1. clear r400 r100 r4.
  destruct Hc as [Hsum [Ha [Hb [Hc [He [Hr [Hb4 He4]]]]]]].
  destruct (Z.eqb_spec e 4) as [E4|E4]; [|destruct (Z.eqb_spec b 4) as [B4|B4]];
    cbn [orb].
  - (* the last day of a leap year, the fourth of its four-year cycle *)
    destruct (He4 E4) as [Hr0 Hc23].
    assert (Hb3 : 0 <= b <= 3) by (destruct (Z.eq_dec b 4) as [B|B];
                                   [destruct (Hb4 B); lia | lia]).
    replace (a * 400 + 1 + b * 100 + c * 4 + e - 1)
      with (400 * a + 100 * b + 4 * c + 3 + 1) by lia.
    unfold valid_date, toordinal, ymd2ord, days_in_month, days_before_month.
    cbn [year month day].
    rewrite days_before_year_cycles, is_leap_cycles by lia.
    destruct (Z.eqb_spec c 24); [lia|]. decide_conditions. lia.
  - (* the last day of a 400-year cycle *)
    destruct (Hb4 B4) as [Hc0 [He0 Hr0]].
    replace (a * 400 + 1 + b * 100 + c * 4 + e - 1)
      with (400 * a + 100 * 3 + 4 * 24 + 3 + 1) by lia.
    unfold valid_date, toordinal, ymd2ord, days_in_month, days_before_month.
    cbn [year month day].
    rewrite days_before_year_cycles, is_leap_cycles by lia.
    decide_conditions. lia.
  - assert (Hb3 : 0 <= b <= 3) by lia. assert (He3 : 0 <= e <= 3) by lia.
    set (leapyear := (e =? 3) && (negb (c =? 24) || (b =? 3))).
    assert (Hleap : 0 <= r1 < 365 + (if leapyear then 1 else 0))
      by (destruct leapyear; lia).
    pose proof (month_of_day_of_year r1 leapyear Hleap) as Hmd.
    cbv zeta in Hmd.
    replace (a * 400 + 1 + b * 100 + c * 4 + e)
      with (400 * a + 100 * b + 4 * c + e + 1) by lia.
    assert (Hy : is_leap (400 * a + 100 * b + 4 * c + e + 1) = leapyear)
      by (apply is_leap_cycles; lia).
    assert (Hd : days_before_year (400 * a + 100 * b + 4 * c + e + 1)
                 = 146097 * a + 36524 * b + 1461 * c + 365 * e)
      by (apply days_before_year_cycles; lia).
    destruct (r1 <? DAYS_BEFORE_MONTH (Z.shiftr (r1 + 50) 5)
                    + (if (2 <? Z.shiftr (r1 + 50) 5) && leapyear
                       then 1 else 0));
      cbn [fst snd] in Hmd;
      unfold valid_date, toordinal, ymd2ord, days_in_month, days_before_month;
      cbn [year month day]; rewrite Hy, Hd;
      destruct Hmd as [Hm [Hday Heq]];
      (split; [split; [lia|]; split; [lia|] | lia]).
    + destruct ((Z.shiftr (r1 + 50) 5 - 1 =? 2) && leapyear) eqn:Hfeb.
      * apply andb_true_iff in Hfeb. destruct Hfeb as [Hfeb _].
        apply Z.eqb_eq in Hfeb. rewrite Hfeb in *.
        change (DAYS_IN_MONTH 2) with 28 in *. lia.
      * lia.
    + destruct ((Z.shiftr (r1 + 50) 5 =? 2) && leapyear) eqn:Hfeb.
      * apply andb_true_iff in Hfeb. destruct Hfeb as [Hfeb _].
        apply Z.eqb_eq in Hfeb. rewrite Hfeb in *.
        change (DAYS_IN_MONTH 2) with 28 in *. lia.
      * lia.
Qed.

Lemma days_before_year_monotone :
  forall p q : Z, p <= q -> days_before_year p <= days_before_year q.
Proof.
  intros p q H. unfold days_before_year. Z.div_mod_to_equations. lia.
Qed.

Lemma days_before_next_year :
  forall y : Z,
    days_before_year (y + 1)
    = days_before_year y + 365 + (if is_leap y then 1 else 0).
Proof.
  intro y. unfold days_before_year, is_leap.
  replace (y + 1 - 1) with y by lia.
  destruct (Z.eqb_spec (y mod 4) 0), (Z.eqb_spec (y mod 100) 0),
    (Z.eqb_spec (y mod 400) 0); cbn [negb orb andb];
    Z.div_mod_to_equations; lia.
Qed.

Ltac month_cases m :=
  let H := fresh "Hcases" in
  assert (H : m = 1 \/ m = 2 \/ m = 3 \/ m = 4 \/ m = 5 \/ m = 6
              \/ m = 7 \/ m = 8 \/ m = 9 \/ m = 10 \/ m = 11 \/ m = 12)
    by lia;
  repeat (destruct H as [->|H]); [.. | subst m].

Ltac decide_tables :=
  repeat match goal with
         | |- context [if ?c then _ else _] =>
             let v := eval vm_compute in c in
             change c with v; cbv iota
         | H : context [if ?c then _ else _] |- _ =>
             let v := eval vm_compute in c in
             change c with v in H; cbv iota in H
         | |- context [DAYS_IN_MONTH ?x] =>
             let v := eval vm_compute in (DAYS_IN_MONTH x) in
             change (DAYS_IN_MONTH x) with v
         | H : context [DAYS_IN_MONTH ?x] |- _ =>
             let v := eval vm_compute in (DAYS_IN_MONTH x) in
             change (DAYS_IN_MONTH x) with v in H
         | |- context [DAYS_BEFORE_MONTH ?x] =>
             let v := eval vm_compute in (DAYS_BEFORE_MONTH x) in
             change (DAYS_BEFORE_MONTH x) with v
         | H : context [DAYS_BEFORE_MONTH ?x] |- _ =>
             let v := eval vm_compute in (DAYS_BEFORE_MONTH x) in
             change (DAYS_BEFORE_MONTH x) with v in H
         end.

(** A day of month [m] comes before every day of a later month. *)
Lemma month_ends_before_next :
  forall (leap : bool) (m m' d : Z),
    1 <= m <= 12 -> 1 <= m' <= 12 -> m < m' ->
    d <= DAYS_IN_MONTH m + (if (m =? 2) && leap then 1 else 0) ->
    DAYS_BEFORE_MONTH m + (if (2 <? m) && leap then 1 else 0) + d
    <= DAYS_BEFORE_MONTH m' + (if (2 <? m') && leap then 1 else 0).
Proof.
  intros leap m m' d Hm Hm' Hlt Hd.
  destruct leap; month_cases m; month_cases m'; try lia;
    decide_tables; lia.
Qed.

Lemma day_of_year_bounds :
  forall (leap : bool) (m d : Z),
    1 <= m <= 12 ->
    1 <= d <= DAYS_IN_MONTH m + (if (m =? 2) && leap then 1 else 0) ->
    1 <= DAYS_BEFORE_MONTH m + (if (2 <? m) && leap then 1 else 0) + d
      <= 365 + (if leap then 1 else 0).
Proof.
  intros leap m d Hm Hd.
  destruct leap; month_cases m; decide_tables; lia.
Qed.

Lemma days_in_month_unfold :
  forall y m : Z,
    days_in_month y m
    = DAYS_IN_MONTH m + (if (m =? 2) && is_leap y then 1 else 0).
Proof.
  intros y m. unfold days_in_month.
  destruct (Z.eqb_spec m 2) as [->|]; cbn [andb]; [|lia].
  destruct (is_leap y); reflexivity.
Qed.

(** The ordinal of a date lies inside its year. *)
Lemma toordinal_in_year :
  forall t : datetime,
    valid_date t ->
    days_before_year (year t) < toordinal t <= days_before_year (year t + 1).
Proof.
  intros [y m d] [Hy [Hm Hd]]. cbn [year month day] in *.
  unfold toordinal, ymd2ord, days_before_month. cbn [year month day].
  rewrite days_in_month_unfold in Hd.
  pose proof (day_of_year_bounds (is_leap y) m d Hm Hd).
  rewrite days_before_next_year. lia.
Qed.

Lemma toordinal_lt :
  forall t t' : datetime,
    valid_date t -> valid_date t' ->
    compare_dates t t' = Lt -> toordinal t < toordinal t'.
Proof.
  intros t t' Hv Hv' Hlt.
  pose proof (toordinal_in_year t Hv) as Hin.
  pose proof (toordinal_in_year t' Hv') as Hin'.
  destruct t as [y m d], t' as [y' m' d'].
  destruct Hv as [Hy [Hm Hd]], Hv' as [Hy' [Hm' Hd']].
  unfold compare_dates in Hlt. cbn [year month day] in *.
  destruct (Z.compare_spec y y') as [->|Hyy|Hyy]; [|clear Hlt|discriminate].
  - unfold toordinal, ymd2ord, days_before_month. cbn [year month day].
    destruct (Z.compare_spec m m') as [->|Hmm|Hmm]; [| |discriminate].
    + change (d < d') in Hlt. lia.
    + rewrite days_in_month_unfold in Hd.
      pose proof (month_ends_before_next (is_leap y') m m' d Hm Hm' Hmm
                    (proj2 Hd)).
      lia.
  - pose proof (days_before_year_monotone (y + 1) y'). lia.
Qed.

(** Dates compare by year, month and day as their ordinals do. *)
Lemma toordinal_compare :
  forall t t' : datetime,
    valid_date t -> valid_date t' ->
    (toordinal t ?= toordinal t') = compare_dates t t'.
Proof.
  intros t t' Hv Hv'.
  destruct (compare_dates t t') eqn:Hc.
  - assert (t = t').
    { destruct t as [y m d], t' as [y' m' d'].
      unfold compare_dates in Hc. cbn [year month day] in Hc.
      destruct (Z.compare_spec y y'); try discriminate.
      destruct (Z.compare_spec m m'); try discriminate.
      apply Z.compare_eq in Hc. congruence. }
    subst. apply Z.compare_refl.
  - apply Z.compare_lt_iff. now apply toordinal_lt.
  - apply Z.compare_gt_iff. apply toordinal_lt; try assumption.
    destruct t as [y m d], t' as [y' m' d'].
    unfold compare_dates in *. cbn [year month day] in *.
    rewrite (Z.compare_antisym y y'), (Z.compare_antisym m m'),
      (Z.compare_antisym d d').
    destruct (y ?= y'); try discriminate; cbn [CompOpp]; [|reflexivity].
    destruct (m ?= m'); try discriminate; cbn [CompOpp]; [|reflexivity].
    now rewrite Hc.
Qed.

Ltac digit_cases H :=
  apply is_digit_cases in H; cbn [In] in H;
  repeat (destruct H as [H|H]; [symmetry in H|]); [subst .. | contradiction].

Lemma digit_bounds :
  forall c : ascii, is_digit c = true -> 0 <= digit c <= 9.
Proof.
  intros c H. digit_cases H; vm_compute; split; discriminate.
Qed.

Lemma digit_compare :
  forall a b : ascii,
    is_digit a = true -> is_digit b = true ->
    Ascii.compare a b = (digit a ?= digit b).
Proof.
  intros a b Ha Hb. digit_cases Ha; digit_cases Hb; reflexivity.
Qed.

Lemma digit_char_digit :
  forall c : ascii, is_digit c = true -> digit_char (digit c) = c.
Proof.
  intros c H. digit_cases H; reflexivity.
Qed.

Lemma digit_char_mod :
  forall n : Z, digit_char n = digit_char (n mod 10).
Proof.
  intro n. unfold digit_char. now rewrite Z.mod_mod by lia.
Qed.

Lemma digit_char_is_digit :
  forall n : Z, is_digit (digit_char n) = true /\ digit (digit_char n) = n mod 10.
Proof.
  intro n. rewrite digit_char_mod.
  assert (H : 0 <= n mod 10 < 10) by (apply Z.mod_pos_bound; lia).
  assert (Hc : n mod 10 = 0 \/ n mod 10 = 1 \/ n mod 10 = 2 \/ n mod 10 = 3
               \/ n mod 10 = 4 \/ n mod 10 = 5 \/ n mod 10 = 6
               \/ n mod 10 = 7 \/ n mod 10 = 8 \/ n mod 10 = 9) by lia.
  repeat (destruct Hc as [Hc|Hc]; [rewrite Hc; split; reflexivity|]).
  rewrite Hc. split; reflexivity.
Qed.

Lemma compare_snoc :
  forall x x' k k' : Z,
    0 <= k <= 9 -> 0 <= k' <= 9 ->
    (x * 10 + k ?= x' * 10 + k')
    = match x ?= x' with
      | Eq => k ?= k'
      | other => other
      end.
Proof.
  intros x x' k k' Hk Hk'.
  destruct (Z.compare_spec x x'); [destruct (Z.compare_spec k k')| |];
    first [apply Z.compare_eq_iff | apply Z.compare_lt_iff
           | apply Z.compare_gt_iff]; lia.
Qed.

Lemma strptime_iso_text :
  forall y1 y2 y3 y4 m1 m2 d1 d2 : ascii,
    digits8 y1 y2 y3 y4 m1 m2 d1 d2 ->
    valid_date (mk_datetime (number4 y1 y2 y3 y4) (number2 m1 m2) (number2 d1 d2)) ->
    iso_date (iso_text y1 y2 y3 y4 m1 m2 d1 d2) = true
    /\ strptime (Some (iso_text y1 y2 y3 y4 m1 m2 d1 d2))
       = Return (mk_datetime (number4 y1 y2 y3 y4) (number2 m1 m2) (number2 d1 d2)).
Proof.
  intros y1 y2 y3 y4 m1 m2 d1 d2
    [Hy1 [Hy2 [Hy3 [Hy4 [Hm1 [Hm2 [Hd1 Hd2]]]]]]] [Hy [Hm Hd]].
  unfold number4, number2 in *. cbn [year month day] in *.
  assert (Ey : (1 <=? digit y1 * 1000 + digit y2 * 100 + digit y3 * 10 + digit y4)
               = true) by (apply Z.leb_le; lia).
  assert (Em1 : (1 <=? digit m1 * 10 + digit m2) = true) by (apply Z.leb_le; lia).
  assert (Em2 : (digit m1 * 10 + digit m2 <=? 12) = true) by (apply Z.leb_le; lia).
  assert (Ed1 : (1 <=? digit d1 * 10 + digit d2) = true) by (apply Z.leb_le; lia).
  assert (Ed2 : (digit d1 * 10 + digit d2
                 <=? days_in_month
                       (digit y1 * 1000 + digit y2 * 100 + digit y3 * 10 + digit y4)
                       (digit m1 * 10 + digit m2)) = true)
    by (apply Z.leb_le; lia).
  split.
  - cbn [iso_date iso_text].
    rewrite Hy1, Hy2, Hy3, Hy4, Hm1, Hm2, Hd1, Hd2, Ey, Em1, Em2, Ed1, Ed2.
    reflexivity.
  - assert (Hd31 : ((1 <=? digit d1 * 10 + digit d2)
                    && (digit d1 * 10 + digit d2 <=? 31)) = true).
    { rewrite Ed1. cbn [andb]. apply Z.leb_le.
      pose proof (days_in_month_at_most_31
                    (digit y1 * 1000 + digit y2 * 100 + digit y3 * 10 + digit y4)
                    (digit m1 * 10 + digit m2)).
      lia. }
    assert (Hm112 : ((1 <=? digit m1 * 10 + digit m2)
                     && (digit m1 * 10 + digit m2 <=? 12)) = true)
      by (rewrite Em1, Em2; reflexivity).
    unfold strptime, match_format, parse_Y, iso_text.
    rewrite Hy1, Hy2, Hy3, Hy4. cbn [andb].
    unfold expect at 1. cbn [Ascii.eqb Bool.eqb].
    rewrite (parse_m_two_digits _ _ _ Hm1 Hm2 Hm112).
    unfold expect. cbn [Ascii.eqb Bool.eqb].
    rewrite (parse_d_two_digits _ _ _ Hd1 Hd2 Hd31).
    rewrite Ey, Ed2. reflexivity.
Qed.

(** A well-formed date text is made of eight digits and two hyphens and
    names a valid date. *)
Lemma iso_date_inv :
  forall s : string,
    iso_date s = true ->
    exists y1 y2 y3 y4 m1 m2 d1 d2 : ascii,
      s = iso_text y1 y2 y3 y4 m1 m2 d1 d2
      /\ digits8 y1 y2 y3 y4 m1 m2 d1 d2
      /\ valid_date (mk_datetime (number4 y1 y2 y3 y4) (number2 m1 m2)
                                 (number2 d1 d2)).
Proof.
  intros s H.
  destruct s as [|y1 [|y2 [|y3 [|y4 [|h1 [|m1 [|m2 [|h2 [|d1 [|d2 [|? ?]]]]]]]]]]];
    try discriminate H.
  cbn [iso_date] in H.
  apply andb_true_iff in H; destruct H as [H Hdim].
  apply andb_true_iff in H; destruct H as [H Hd].
  apply andb_true_iff in H; destruct H as [H Hm12].
  apply andb_true_iff in H; destruct H as [H Hm].
  apply andb_true_iff in H; destruct H as [H Hy].
  apply andb_true_iff in H; destruct H as [H Hd2].
  apply andb_true_iff in H; destruct H as [H Hd1].
  apply andb_true_iff in H; destruct H as [H Hh2].
  apply andb_true_iff in H; destruct H as [H Hm2].
  apply andb_true_iff in H; destruct H as [H Hm1].
  apply andb_true_iff in H; destruct H as [H Hh1].
  apply andb_true_iff in H; destruct H as [H Hy4].
  apply andb_true_iff in H; destruct H as [H Hy3].
  apply andb_true_iff in H; destruct H as [Hy1 Hy2].
  apply Ascii.eqb_eq in Hh1, Hh2. subst h1 h2.
  exists y1, y2, y3, y4, m1, m2, d1, d2.
  split; [reflexivity|]. split; [unfold digits8; auto 10|].
  pose proof (digit_bounds _ Hy1). pose proof (digit_bounds _ Hy2).
  pose proof (digit_bounds _ Hy3). pose proof (digit_bounds _ Hy4).
  apply Z.leb_le in Hdim, Hd, Hm12, Hm, Hy.
  unfold valid_date, number4, number2. cbn [year month day]. lia.
Qed.

(** Date texts compare as the dates they name. *)
Lemma iso_text_compare :
  forall y1 y2 y3 y4 m1 m2 d1 d2 y1' y2' y3' y4' m1' m2' d1' d2' : ascii,
    digits8 y1 y2 y3 y4 m1 m2 d1 d2 ->
    digits8 y1' y2' y3' y4' m1' m2' d1' d2' ->
    String.compare (iso_text y1 y2 y3 y4 m1 m2 d1 d2)
                   (iso_text y1' y2' y3' y4' m1' m2' d1' d2')
    = compare_dates
        (mk_datetime (number4 y1 y2 y3 y4) (number2 m1 m2) (number2 d1 d2))
        (mk_datetime (number4 y1' y2' y3' y4') (number2 m1' m2') (number2 d1' d2')).
Proof.
  intros y1 y2 y3 y4 m1 m2 d1 d2 y1' y2' y3' y4' m1' m2' d1' d2'
    [Hy1 [Hy2 [Hy3 [Hy4 [Hm1 [Hm2 [Hd1 Hd2]]]]]]]
    [Hy1' [Hy2' [Hy3' [Hy4' [Hm1' [Hm2' [Hd1' Hd2']]]]]]].
  unfold compare_dates, number4, number2, iso_text.
  cbn [year month day String.compare].
  change (Ascii.compare "-" "-") with Eq. cbv iota.
  rewrite !digit_compare by assumption.
  pose proof (digit_bounds _ Hy2). pose proof (digit_bounds _ Hy3).
  pose proof (digit_bounds _ Hy4). pose proof (digit_bounds _ Hm2).
  pose proof (digit_bounds _ Hd2). pose proof (digit_bounds _ Hy2').
  pose proof (digit_bounds _ Hy3'). pose proof (digit_bounds _ Hy4').
  pose proof (digit_bounds _ Hm2'). pose proof (digit_bounds _ Hd2').
  replace (digit y1 * 1000 + digit y2 * 100 + digit y3 * 10 + digit y4)
    with (((digit y1 * 10 + digit y2) * 10 + digit y3) * 10 + digit y4) by lia.
  replace (digit y1' * 1000 + digit y2' * 100 + digit y3' * 10 + digit y4')
    with (((digit y1' * 10 + digit y2') * 10 + digit y3') * 10 + digit y4')
    by lia.
  rewrite !compare_snoc by assumption.
  destruct (digit y1 ?= digit y1'); try reflexivity.
  destruct (digit y2 ?= digit y2'); try reflexivity.
  destruct (digit y3 ?= digit y3'); try reflexivity.
  destruct (digit y4 ?= digit y4'); try reflexivity.
  destruct (digit m1 ?= digit m1'); try reflexivity.
  destruct (digit m2 ?= digit m2'); try reflexivity.
  destruct (digit d1 ?= digit d1'); try reflexivity.
  destruct (digit d2 ?= digit d2'); reflexivity.
Qed.

Lemma zero_padded_snoc :
  forall (w : nat) (x k : Z),
    0 <= k <= 9 ->
    zero_padded (S w) (x * 10 + k)
    = (zero_padded w x ++ String (digit_char k) EmptyString)%string.
Proof.
  intros w x k Hk. cbn [zero_padded].
  replace ((x * 10 + k) / 10) with x by (Z.div_mod_to_equations; lia).
  rewrite (digit_char_mod (x * 10 + k)), (digit_char_mod k).
  replace ((x * 10 + k) mod 10) with (k mod 10)
    by (Z.div_mod_to_equations; lia).
  reflexivity.
Qed.

(** Printing the date a well-formed text names gives the text back. *)
Lemma isoformat_iso_text :
  forall y1 y2 y3 y4 m1 m2 d1 d2 : ascii,
    digits8 y1 y2 y3 y4 m1 m2 d1 d2 ->
    isoformat_date
      (mk_datetime (number4 y1 y2 y3 y4) (number2 m1 m2) (number2 d1 d2))
    = iso_text y1 y2 y3 y4 m1 m2 d1 d2.
Proof.
  intros y1 y2 y3 y4 m1 m2 d1 d2
    [Hy1 [Hy2 [Hy3 [Hy4 [Hm1 [Hm2 [Hd1 Hd2]]]]]]].
  unfold isoformat_date, number4, number2, iso_text. cbn [year month day].
  replace (digit y1 * 1000 + digit y2 * 100 + digit y3 * 10 + digit y4)
    with ((((0 * 10 + digit y1) * 10 + digit y2) * 10 + digit y3) * 10 + digit y4)
    by lia.
  replace (digit m1 * 10 + digit m2) with ((0 * 10 + digit m1) * 10 + digit m2)
    by lia.
  replace (digit d1 * 10 + digit d2) with ((0 * 10 + digit d1) * 10 + digit d2)
    by lia.
  rewrite !zero_padded_snoc by (apply digit_bounds; assumption).
  rewrite !digit_char_digit by assumption.
  reflexivity.
Qed.

(** Every valid date is named by eight digits. *)
Lemma datetime_digits :
  forall t : datetime,
    valid_date t ->
    exists y1 y2 y3 y4 m1 m2 d1 d2 : ascii,
      digits8 y1 y2 y3 y4 m1 m2 d1 d2
      /\ t = mk_datetime (number4 y1 y2 y3 y4) (number2 m1 m2) (number2 d1 d2).
Proof.
  intros [y m d] [Hy [Hm Hd]]. cbn [year month day] in *.
  pose proof (days_in_month_at_most_31 y m) as H31.
  exists (digit_char (y / 1000)), (digit_char (y / 100)),
    (digit_char (y / 10)), (digit_char y),
    (digit_char (m / 10)), (digit_char m),
    (digit_char (d / 10)), (digit_char d).
  split.
  - unfold digits8. repeat split; apply digit_char_is_digit.
  - unfold number4, number2.
    rewrite !(proj2 (digit_char_is_digit _)).
    f_equal; Z.div_mod_to_equations; lia.
Qed.

(** Parsing the text printed for a valid date gives the date back. *)
Lemma strptime_isoformat :
  forall t : datetime,
    valid_date t ->
    iso_date (isoformat_date t) = true
    /\ strptime (Some (isoformat_date t)) = Return t.
Proof.
  intros t Hv.
  destruct (datetime_digits t Hv)
    as [y1 [y2 [y3 [y4 [m1 [m2 [d1 [d2 [Hdig ->]]]]]]]]].
  rewrite (isoformat_iso_text _ _ _ _ _ _ _ _ Hdig).
  now apply strptime_iso_text.
Qed.

(** The order of well-formed date texts is the order of the days they name. *)
Lemma iso_date_compare :
  forall (a b : string) (ta tb : datetime),
    iso_date a = true -> iso_date b = true ->
    strptime (Some a) = Return ta -> strptime (Some b) = Return tb ->
    String.compare a b = (toordinal ta ?= toordinal tb).
Proof.
  intros a b ta tb Ha Hb Hta Htb.
  destruct (iso_date_inv a Ha)
    as [y1 [y2 [y3 [y4 [m1 [m2 [d1 [d2 [-> [Hdig Hv]]]]]]]]]].
  destruct (iso_date_inv b Hb)
    as [y1' [y2' [y3' [y4' [m1' [m2' [d1' [d2' [-> [Hdig' Hv']]]]]]]]]].
  rewrite (proj2 (strptime_iso_text _ _ _ _ _ _ _ _ Hdig Hv)) in Hta.
  rewrite (proj2 (strptime_iso_text _ _ _ _ _ _ _ _ Hdig' Hv')) in Htb.
  injection Hta as <-. injection Htb as <-.
  rewrite (toordinal_compare _ _ Hv Hv').
  now apply iso_text_compare.
Qed.

End Calendar.

Section DateFilters.

Local Open Scope Z_scope.

Lemma iso_date_length :
  forall s : string, iso_date s = true -> String.length s = 10%nat.
Proof.
  intros s H.
  destruct (iso_date_inv s H) as [y1 [y2 [y3 [y4 [m1 [m2 [d1 [d2 [-> _]]]]]]]]].
  reflexivity.
Qed.

(** What [strptime] makes of a well-formed date text. *)
Lemma iso_date_parsed :
  forall s : string,
    iso_date s = true ->
    exists t : datetime,
      strptime (Some s) = Return t
      /\ valid_date t
      /\ isoformat_date t = s
      /\ ordinal_of s = toordinal t.
Proof.
  intros s H.
  destruct (iso_date_inv s H)
    as [y1 [y2 [y3 [y4 [m1 [m2 [d1 [d2 [-> [Hdig Hv]]]]]]]]]].
  destruct (strptime_iso_text _ _ _ _ _ _ _ _ Hdig Hv) as [_ Hp].
  eexists. split; [exact Hp|]. split; [exact Hv|].
  split; [now apply isoformat_iso_text|].
  unfold ordinal_of. now rewrite Hp.
Qed.

Lemma toordinal_range :
  forall t : datetime, valid_date t -> 1 <= toordinal t <= MAXORDINAL.
Proof.
  intros t Hv. pose proof (toordinal_in_year t Hv) as Hin.
  destruct Hv as [Hy _].
  pose proof (days_before_year_monotone 1 (year t)).
  pose proof (days_before_year_monotone (year t + 1) 10000).
  change (days_before_year 1) with 0 in *.
  change (days_before_year 10000) with 3652059 in *.
  unfold MAXORDINAL. lia.
Qed.

Lemma text_le_ordinal :
  forall a b : string,
    iso_date a = true -> iso_date b = true ->
    Text.le a b = (ordinal_of a <=? ordinal_of b).
Proof.
  intros a b Ha Hb.
  destruct (iso_date_parsed a Ha) as [ta [Hpa [_ [_ Hoa]]]].
  destruct (iso_date_parsed b Hb) as [tb [Hpb [_ [_ Hob]]]].
  unfold Text.le, String.leb, Z.leb.
  rewrite (iso_date_compare a b ta tb Ha Hb Hpa Hpb), Hoa, Hob.
  reflexivity.
Qed.

Lemma sub_days_spec :
  forall (t c : datetime) (n : Z),
    sub_days t n = Return c ->
    valid_date c /\ toordinal c = toordinal t - n.
Proof.
  intros t c n. unfold sub_days.
  destruct (Z.ltb_spec 0 (toordinal t - n)) as [Hlo|Hlo]; cbn [andb];
    [|discriminate].
  destruct (Z.leb_spec (toordinal t - n) MAXORDINAL) as [Hhi|Hhi];
    [|discriminate].
  intro Heq. injection Heq as <-. apply ord2ymd_inverse. lia.
Qed.

(** The date filter of the two queries, in days: a well-formed date passes
    exactly when it is less than [n] days before the day of [t]. *)
Lemma cutoff_filter_window :
  forall (t cutoff : datetime) (n : Z) (k : string),
    iso_date k = true ->
    sub_days t n = Return cutoff ->
    Text.ge k (bind_text cutoff) = (toordinal t - n <? ordinal_of k).
Proof.
  intros t cutoff n k Hk Hsub.
  destruct (sub_days_spec t cutoff n Hsub) as [Hv Hord].
  destruct (strptime_isoformat cutoff Hv) as [Hiso Hparse].
  destruct (iso_date_parsed k Hk) as [tk [Hpk [_ [_ Hok]]]].
  rewrite (filter_keeps_later_days cutoff k (iso_date_length k Hk)).
  unfold String.ltb, Z.ltb.
  rewrite (iso_date_compare _ _ cutoff tk Hiso Hk Hparse Hpk), Hok, Hord.
  reflexivity.
Qed.

Lemma maximum_upper_bound :
  forall (l : list string) (x : string),
    Text.maximum l = Some x -> Forall (fun y => Text.le y x = true) l.
Proof.
  induction l as [|a r IH]; intros x H; [constructor|].
  cbn [Text.maximum] in H. destruct (Text.maximum r) as [y|] eqn:Hr.
  - injection H as <-. specialize (IH y eq_refl). unfold Text.max2.
    destruct (Text.le a y) eqn:Hay.
    + constructor; [exact Hay | exact IH].
    + assert (Hya : Text.le y a = true).
      { unfold Text.le in *. destruct (String.leb_total a y); congruence. }
      constructor; [apply text_le_refl|].
      eapply Forall_impl; [|exact IH]. cbn. intros z Hz.
      exact (text_le_trans z y a Hz Hya).
  - injection H as <-. destruct r; [|cbn in Hr; destruct (Text.maximum r); discriminate].
    constructor; [apply text_le_refl | constructor].
Qed.

End DateFilters.

(** ** Dates as days *)

(** X11: [strptime] and the date text of a bound parameter are inverse to
    each other: the text printed for a valid date parses back to that date,
    and a well-formed date text parses to a valid date that prints as the
    same text. *)
Theorem strptime_isoformat_round_trip :
  (forall t : datetime,
      valid_date t -> strptime (Some (isoformat_date t)) = Return t)
  /\ (forall s : string,
        iso_date s = true ->
        exists t : datetime,
          strptime (Some s) = Return t
          /\ valid_date t
          /\ isoformat_date t = s).
Proof.
  split.
  - intros t Hv. apply strptime_isoformat. exact Hv.
  - intros s Hs. destruct (iso_date_parsed s Hs) as [t [H1 [H2 [H3 _]]]].
    exists t. auto.
Qed.

Lemma strptime_isoformat_round_trip_witness :
  valid_date (mk_datetime 2016 2 29)
  /\ strptime (Some (isoformat_date (mk_datetime 2016 2 29)))
     = Return (mk_datetime 2016 2 29)
  /\ iso_date "2017-08-23" = true
  /\ exists t : datetime,
       strptime (Some "2017-08-23") = Return t
       /\ valid_date t
       /\ isoformat_date t = "2017-08-23".
Proof.
  assert (Hv : valid_date (mk_datetime 2016 2 29)).
  { unfold valid_date. cbn. lia. }
  split; [exact Hv|]. split.
  - exact (proj1 strptime_isoformat_round_trip _ Hv).
  - split; [reflexivity|].
    exact (proj2 strptime_isoformat_round_trip "2017-08-23" eq_refl).
Defined.

(** X12: on a store of well-formed dates and for well-formed bounds, the
    filters of the summary queries, which compare texts, select by day: the
    start route aggregates over the measurements dated on the start day or
    later, the start/end route over those dated from the start day to the
    end day, both included. *)
Theorem summary_queries_select_by_day :
  forall (q : summary_request) (w : World),
    dates_well_formed (engine w) ->
    bounds_well_formed q ->
    match q with
    | From_start start => start_query start (engine w)
    | Start_end start end_ => start_end_query start end_ (engine w)
    end
    = aggregate_row
        (filter (fun m => within_days q (Measurement.date m))
                (measurements (engine w))).
Proof.
  intros q w Hwf Hq. unfold dates_well_formed in Hwf.
  rewrite Forall_forall in Hwf.
  destruct q as [start|start end_]; cbn [bounds_well_formed within_days] in *.
  - rewrite start_query_from_start. unfold from_start. f_equal.
    apply filter_ext_in. intros m Hm.
    now rewrite (text_le_ordinal _ _ Hq (Hwf m Hm)).
  - destruct Hq as [Hs He]. rewrite start_end_query_window.
    unfold in_window. f_equal. apply filter_ext_in. intros m Hm.
    now rewrite (text_le_ordinal _ _ Hs (Hwf m Hm)),
      (text_le_ordinal _ _ (Hwf m Hm) He).
Qed.

Lemma summary_queries_select_by_day_witness :
  dates_well_formed (engine (Sample.world_of Sample.two_stations))
  /\ bounds_well_formed (Start_end "2017-08-21" "2017-08-22")
  /\ start_end_query "2017-08-21" "2017-08-22"
                     (engine (Sample.world_of Sample.two_stations))
     = aggregate_row
         (filter (fun m => within_days (Start_end "2017-08-21" "2017-08-22")
                                       (Measurement.date m))
                 (measurements (engine (Sample.world_of Sample.two_stations)))).
Proof.
  assert (Hwf : dates_well_formed (engine (Sample.world_of Sample.two_stations))).
  { unfold dates_well_formed. cbn. repeat constructor. }
  assert (Hq : bounds_well_formed (Start_end "2017-08-21" "2017-08-22")).
  { split; reflexivity. }
  split; [exact Hwf|]. split; [exact Hq|].
  exact (summary_queries_select_by_day (Start_end "2017-08-21" "2017-08-22")
           (Sample.world_of Sample.two_stations) Hwf Hq).
Defined.

(** X13: subtracting a [timedelta] of [n] days gives a valid date whose
    day lies exactly [n] days earlier, and raises OverflowError, and
    nothing else, exactly when that day falls outside the years 1 to
    9999. *)
Theorem sub_days_exact :
  forall (t : datetime) (n : Z),
    (forall c : datetime,
        sub_days t n = Return c ->
        valid_date c /\ toordinal c = (toordinal t - n)%Z)
    /\ (forall e : exn,
          sub_days t n = Raise e ->
          e = OverflowError
          /\ ~ (1 <= toordinal t - n <= MAXORDINAL)%Z)
    /\ ((1 <= toordinal t - n <= MAXORDINAL)%Z ->
        exists c : datetime, sub_days t n = Return c).
Proof.
  intros t n. split; [|split].
  - intros c Hc. now apply sub_days_spec.
  - intros e He. split; [now apply sub_days_raises_overflow_only in He|].
    unfold sub_days in He.
    destruct (Z.ltb_spec 0 (toordinal t - n)%Z) as [Hlo|Hlo];
      destruct (Z.leb_spec (toordinal t - n)%Z MAXORDINAL) as [Hhi|Hhi];
      cbn [andb] in He; try discriminate He; lia.
  - intros [Hlo Hhi]. unfold sub_days.
    destruct (Z.ltb_spec 0 (toordinal t - n)%Z) as [Hlo'|Hlo']; [|lia].
    destruct (Z.leb_spec (toordinal t - n)%Z MAXORDINAL) as [Hhi'|Hhi']; [|lia].
    cbn [andb]. eauto.
Qed.

Lemma sub_days_exact_witness :
  sub_days (mk_datetime 2017 3 1) 365 = Return (mk_datetime 2016 3 1)
  /\ valid_date (mk_datetime 2016 3 1)
  /\ toordinal (mk_datetime 2016 3 1)
     = (toordinal (mk_datetime 2017 3 1) - 365)%Z.
Proof.
  split; [reflexivity|].
  exact (proj1 (sub_days_exact (mk_datetime 2017 3 1) 365)
           (mk_datetime 2016 3 1) eq_refl).
Defined.

(** ** The last 365 days *)

Lemma precipitation_returns :
  forall (w : World) (a : response),
    fst (precipitation w) = Return a ->
    exists (d : string) (t cutoff : datetime),
      recent_date_query (engine w) = Some d
      /\ strptime (Some d) = Return t
      /\ sub_days t 365 = Return cutoff
      /\ a = Json (JDict (Dict.comprehension
             (map (fun m => (Measurement.date m,
                             json_of_number (Measurement.prcp m)))
                  (filter (fun m => Text.ge (Measurement.date m)
                                            (bind_text cutoff))
                          (measurements (engine w)))))).
Proof.
  intros w a. unfold precipitation. run_handler.
  destruct (recent_date_query (engine w)) as [d|] eqn:Hd;
    [|cbn; discriminate].
  destruct (strptime (Some d)) as [t|e] eqn:Ht; [|cbn; discriminate].
  destruct (sub_days t 365) as [cutoff|e] eqn:Hc; [|cbn; discriminate].
  cbn [fst]. intro H. injection H as <-. rewrite precipitation_items.
  exists d, t, cutoff. auto.
Qed.

Lemma last_date_is_latest :
  forall (rows : list Measurement.t) (d : string),
    Forall (fun m => iso_date (Measurement.date m) = true) rows ->
    Text.maximum (map Measurement.date rows) = Some d ->
    iso_date d = true
    /\ (exists m, In m rows /\ Measurement.date m = d)
    /\ (forall m, In m rows ->
                  (ordinal_of (Measurement.date m) <= ordinal_of d)%Z).
Proof.
  intros rows d Hwf Hd. rewrite Forall_forall in Hwf.
  pose proof (maximum_in _ _ Hd) as Hin. apply in_map_iff in Hin.
  destruct Hin as [m0 [Hm0 Hin0]].
  assert (Hiso : iso_date d = true) by (rewrite <- Hm0; now apply Hwf).
  split; [exact Hiso|]. split; [now exists m0|].
  intros m Hm. pose proof (maximum_upper_bound _ _ Hd) as Hub.
  rewrite Forall_forall in Hub.
  specialize (Hub (Measurement.date m) (in_map _ _ _ Hm)).
  rewrite (text_le_ordinal _ _ (Hwf m Hm) Hiso) in Hub.
  now apply Z.leb_le.
Qed.

(** X14: on a store of well-formed dates, whenever the precipitation route
    answers, the keys of the answer are the dates of the measurements of
    the last 365 days of data: the last day of the table and the 364 days
    before it.  A measurement dated a full 365 days before the last day is
    not among them. *)
Theorem precipitation_covers_last_365_days :
  forall (w : World) (a : response),
    dates_well_formed (engine w) ->
    fst (precipitation w) = Return a ->
    exists (last : Z) (items : Dict.t json),
      a = Json (JDict items)
      /\ (exists m : Measurement.t,
             In m (measurements (engine w))
             /\ ordinal_of (Measurement.date m) = last)
      /\ (forall m : Measurement.t,
             In m (measurements (engine w)) ->
             (ordinal_of (Measurement.date m) <= last)%Z)
      /\ (forall k : string,
             In k (Dict.keys items)
             <-> exists m : Measurement.t,
                 In m (measurements (engine w))
                 /\ Measurement.date m = k
                 /\ (last - 365 < ordinal_of k)%Z).
Proof.
  intros w a Hwf Hret.
  destruct (precipitation_returns w a Hret) as [d [t [cutoff [Hd [Ht [Hc ->]]]]]].
  destruct (last_date_is_latest _ d Hwf Hd) as [Hiso [[m0 [Hin0 Hm0]] Hlatest]].
  assert (Hord : ordinal_of d = toordinal t)
    by (unfold ordinal_of; now rewrite Ht).
  exists (ordinal_of d). eexists. split; [reflexivity|].
  split; [exists m0; split; [exact Hin0 | now rewrite Hm0]|].
  split; [exact Hlatest|].
  intro k. rewrite keys_comprehension, map_map. cbn [fst].
  rewrite in_map_iff. unfold dates_well_formed in Hwf.
  rewrite Forall_forall in Hwf. split.
  - intros [m [Hk Hm]]. apply filter_In in Hm. destruct Hm as [Hm Hp].
    exists m. split; [exact Hm|]. split; [exact Hk|].
    rewrite (cutoff_filter_window t cutoff 365 _ (Hwf m Hm) Hc) in Hp.
    apply Z.ltb_lt in Hp. rewrite Hord, <- Hk. exact Hp.
  - intros [m [Hm [Hk Hp]]]. exists m. split; [exact Hk|].
    apply filter_In. split; [exact Hm|].
    rewrite (cutoff_filter_window t cutoff 365 _ (Hwf m Hm) Hc).
    apply Z.ltb_lt. rewrite <- Hord, Hk. exact Hp.
Qed.

Lemma precipitation_covers_last_365_days_witness :
  dates_well_formed (engine (Sample.world_of Sample.year_apart))
  /\ exists (last : Z) (items : Dict.t json),
       Json (JDict [("2017-08-23", JNum 0)]) = Json (JDict items)
       /\ (forall m : Measurement.t,
              In m (measurements (engine (Sample.world_of Sample.year_apart))) ->
              (ordinal_of (Measurement.date m) <= last)%Z).
Proof.
  assert (Hwf : dates_well_formed (engine (Sample.world_of Sample.year_apart))).
  { unfold dates_well_formed. cbn. repeat constructor. }
  split; [exact Hwf|].
  destruct (precipitation_covers_last_365_days
              (Sample.world_of Sample.year_apart)
              (Json (JDict [("2017-08-23", JNum 0)])) Hwf)
    as [last [items [H1 [_ [H3 _]]]]].
  - vm_compute. reflexivity.
  - exists last, items. auto.
Defined.

Lemma tobs_returns :
  forall (order_by_count_desc : list (string * nat) -> list (string * nat))
         (w : World) (a : response),
    fst (tobs order_by_count_desc w) = Return a ->
    exists (first : string * nat) (rest : list (string * nat))
           (d : string) (t cutoff : datetime),
      ordered_stations_query order_by_count_desc (engine w) = first :: rest
      /\ most_recent_date_query (fst first) (engine w) = Some d
      /\ strptime (Some d) = Return t
      /\ sub_days t 365 = Return cutoff
      /\ a = Json (JList
                 (map (fun m => JDict [("date", JStr (Measurement.date m));
                                       ("temperature", JNum (Measurement.tobs m))])
                      (filter (fun m =>
                                 String.eqb (Measurement.station m) (fst first)
                                 && Text.ge (Measurement.date m) (bind_text cutoff))
                              (measurements (engine w))))).
Proof.
  intros order w a. unfold tobs. run_handler.
  destruct (ordered_stations_query order (engine w)) as [|first rest] eqn:Hq;
    [cbn; discriminate|].
  cbn [getitem0].
  destruct (most_recent_date_query (fst first) (engine w)) as [d|] eqn:Hd;
    [|cbn; discriminate].
  destruct (strptime (Some d)) as [t|e] eqn:Ht; [|cbn; discriminate].
  destruct (sub_days t 365) as [cutoff|e] eqn:Hc; [|cbn; discriminate].
  cbn [fst]. intro H. injection H as <-.
  exists first, rest, d, t, cutoff.
  split; [reflexivity|]. split; [exact Hd|]. split; [exact Ht|].
  split; [exact Hc|].
  unfold temperature_data_query. rewrite map_map. reflexivity.
Qed.

(** X15: on a store of well-formed dates, whenever the tobs route answers,
    the answer lists, in table order, the observations the selected
    station made in its own last 365 days of data, its last day included:
    nothing of that station is dated later than its last day, and the day
    365 days before it is left out. *)
Theorem tobs_covers_last_365_days :
  forall (order_by_count_desc : list (string * nat) -> list (string * nat))
         (w : World) (a : response),
    dates_well_formed (engine w) ->
    fst (tobs order_by_count_desc w) = Return a ->
    exists (id : string) (last : Z),
      (exists m : Measurement.t,
          In m (measurements (engine w))
          /\ Measurement.station m = id
          /\ ordinal_of (Measurement.date m) = last)
      /\ (forall m : Measurement.t,
             In m (measurements (engine w)) ->
             Measurement.station m = id ->
             (ordinal_of (Measurement.date m) <= last)%Z)
      /\ a = Json (JList
                 (map (fun m => JDict [("date", JStr (Measurement.date m));
                                       ("temperature", JNum (Measurement.tobs m))])
                      (filter (fun m =>
                                 String.eqb (Measurement.station m) id
                                 && (last - 365 <? ordinal_of (Measurement.date m))%Z)
                              (measurements (engine w))))).
Proof.
  intros order w a Hwf Hret.
  destruct (tobs_returns order w a Hret)
    as [first [rest [d [t [cutoff [_ [Hd [Ht [Hc ->]]]]]]]]].
  pose proof (station_rows_well_formed (fst first) _ Hwf) as Hwf'.
  destruct (last_date_is_latest _ d Hwf' Hd) as [Hiso [[m0 [Hin0 Hm0]] Hlatest]].
  assert (Hord : ordinal_of d = toordinal t)
    by (unfold ordinal_of; now rewrite Ht).
  exists (fst first), (ordinal_of d).
  split; [|split].
  - apply filter_In in Hin0. destruct Hin0 as [Hin0 Hst].
    apply String.eqb_eq in Hst. exists m0. rewrite Hm0. auto.
  - intros m Hm Hst. apply Hlatest. apply filter_In. split; [exact Hm|].
    now apply String.eqb_eq.
  - do 3 f_equal. apply filter_ext_in. intros m Hm.
    unfold dates_well_formed in Hwf. rewrite Forall_forall in Hwf.
    rewrite (cutoff_filter_window t cutoff 365 _ (Hwf m Hm) Hc), Hord.
    reflexivity.
Qed.

Lemma tobs_covers_last_365_days_witness :
  dates_well_formed (engine (Sample.world_of Sample.year_apart))
  /\ exists (id : string) (last : Z),
       Json (JList [JDict [("date", JStr "2017-08-23");
                           ("temperature", JNum 81)]])
       = Json (JList
            (map (fun m => JDict [("date", JStr (Measurement.date m));
                                  ("temperature", JNum (Measurement.tobs m))])
                 (filter (fun m =>
                            String.eqb (Measurement.station m) id
                            && (last - 365 <? ordinal_of (Measurement.date m))%Z)
                         (measurements
                            (engine (Sample.world_of Sample.year_apart)))))).
Proof.
  assert (Hwf : dates_well_formed (engine (Sample.world_of Sample.year_apart))).
  { unfold dates_well_formed. cbn. repeat constructor. }
  split; [exact Hwf|].
  destruct (tobs_covers_last_365_days StableOrder.sort_desc
              (Sample.world_of Sample.year_apart)
              (Json (JList [JDict [("date", JStr "2017-08-23");
                                   ("temperature", JNum 81)]])) Hwf)
    as [id [last [_ [_ H3]]]].
  - vm_compute. reflexivity.
  - exists id, last. exact H3.
Defined.

(** ** When the two query routes answer *)

Lemma cutoff_in_range :
  forall t : datetime,
    valid_date t ->
    (365 < toordinal t)%Z <-> exists c, sub_days t 365 = Return c.
Proof.
  intros t Hv. pose proof (toordinal_range t Hv) as Hr. unfold sub_days.
  destruct (Z.ltb_spec 0 (toordinal t - 365)%Z) as [Hlo|Hlo]; cbn [andb].
  - destruct (Z.leb_spec (toordinal t - 365)%Z MAXORDINAL) as [Hhi|Hhi];
      [|lia].
    split; [eauto | lia].
  - split; [lia | intros [c Hc]; discriminate Hc].
Qed.

Lemma last_date_parsed :
  forall rows : list Measurement.t,
    rows <> [] ->
    Forall (fun m => iso_date (Measurement.date m) = true) rows ->
    exists (d : string) (t : datetime),
      Text.maximum (map Measurement.date rows) = Some d
      /\ strptime (Some d) = Return t
      /\ valid_date t
      /\ (exists m, In m rows /\ ordinal_of (Measurement.date m) = toordinal t)
      /\ (forall m, In m rows ->
                    (ordinal_of (Measurement.date m) <= toordinal t)%Z).
Proof.
  intros rows Hne Hwf.
  destruct (maximum_date_parses rows Hne Hwf) as [d [t [Hd [_ Ht]]]].
  destruct (last_date_is_latest rows d Hwf Hd) as [Hiso [[m0 [Hin0 Hm0]] Hlatest]].
  destruct (iso_date_parsed d Hiso) as [t' [Ht' [Hv [_ Hord]]]].
  rewrite Ht in Ht'. injection Ht' as <-.
  exists d, t. split; [exact Hd|]. split; [exact Ht|]. split; [exact Hv|].
  split.
  - exists m0. split; [exact Hin0|]. now rewrite Hm0.
  - intros m Hm. rewrite <- Hord. now apply Hlatest.
Qed.

(** X16: on a store with measurements whose dates are well-formed, the
    precipitation route answers exactly when some measurement is dated
    after the year 0001, whose last day has ordinal 365, and raises
    OverflowError otherwise; the tobs route answers when every measurement
    is dated after that year. *)
Theorem query_routes_answer :
  forall (order_by_count_desc : list (string * nat) -> list (string * nat))
         (w : World),
    (forall l, Permutation l (order_by_count_desc l)) ->
    measurements (engine w) <> [] ->
    dates_well_formed (engine w) ->
    ((exists m : Measurement.t,
         In m (measurements (engine w))
         /\ (365 < ordinal_of (Measurement.date m))%Z)
     <-> exists a : response, fst (precipitation w) = Return a)
    /\ ((forall m : Measurement.t,
            In m (measurements (engine w)) ->
            (ordinal_of (Measurement.date m) <= 365)%Z) ->
        fst (precipitation w) = Raise OverflowError)
    /\ ((forall m : Measurement.t,
            In m (measurements (engine w)) ->
            (365 < ordinal_of (Measurement.date m))%Z) ->
        exists a : response, fst (tobs order_by_count_desc w) = Return a).
Proof.
  intros order w Hperm Hne Hwf.
  destruct (last_date_parsed _ Hne Hwf)
    as [d [t [Hd [Ht [Hv [[m0 [Hin0 Hm0]] Hlatest]]]]]].
  pose proof (precipitation_run w d t Hd Ht) as Hrun.
  pose proof (cutoff_in_range t Hv) as Hcut.
  split; [|split].
  - split.
    + intros [m [Hm Hlate]]. specialize (Hlatest m Hm).
      destruct (proj1 Hcut) as [c Hc]; [lia|].
      rewrite Hrun, Hc. cbn [fst]. eauto.
    + intros [a Ha]. rewrite Hrun in Ha.
      destruct (sub_days t 365) as [c|e] eqn:Hc; [|discriminate Ha].
      exists m0. split; [exact Hin0|]. rewrite Hm0. apply Hcut. eauto.
  - intro Hearly. specialize (Hearly m0 Hin0). rewrite Hm0 in Hearly.
    rewrite Hrun. destruct (sub_days t 365) as [c|e] eqn:Hc.
    + assert (365 < toordinal t)%Z by (apply Hcut; eauto). lia.
    + apply sub_days_raises_overflow_only in Hc. now subst e.
  - intro Hlate.
    destruct (ordered_stations_first order Hperm (engine w) Hne)
      as [first [rest [Hq [Hcount Hpos]]]].
    assert (Hrows : filter (fun m => String.eqb (Measurement.station m) (fst first))
                           (measurements (engine w)) <> []).
    { intro Hnil. unfold observation_count in Hcount.
      rewrite Hnil in Hcount. cbn in Hcount. lia. }
    destruct (last_date_parsed _ Hrows (station_rows_well_formed _ _ Hwf))
      as [d' [t' [Hd' [Ht' [Hv' [[m1 [Hin1 Hm1]] _]]]]]].
    apply filter_In in Hin1. destruct Hin1 as [Hin1 _].
    specialize (Hlate m1 Hin1). rewrite Hm1 in Hlate.
    destruct (proj1 (cutoff_in_range t' Hv') Hlate) as [c Hc].
    rewrite (tobs_run order w first rest d' t' Hq Hd' Ht'), Hc.
    cbn [fst]. eauto.
Qed.

Lemma query_routes_answer_witness :
  measurements (engine (Sample.world_of Sample.two_stations)) <> []
  /\ dates_well_formed (engine (Sample.world_of Sample.two_stations))
  /\ (exists m : Measurement.t,
         In m (measurements (engine (Sample.world_of Sample.two_stations)))
         /\ (365 < ordinal_of (Measurement.date m))%Z)
  /\ exists a : response,
       fst (precipitation (Sample.world_of Sample.two_stations)) = Return a.
Proof.
  assert (Hne : measurements (engine (Sample.world_of Sample.two_stations)) <> []).
  { cbn. discriminate. }
  assert (Hwf : dates_well_formed (engine (Sample.world_of Sample.two_stations))).
  { unfold dates_well_formed. cbn. repeat constructor. }
  assert (Hsome : exists m : Measurement.t,
             In m (measurements (engine (Sample.world_of Sample.two_stations)))
             /\ (365 < ordinal_of (Measurement.date m))%Z).
  { exists (Sample.row "USC00519281" "2017-08-21" (Some (2 # 100)) 76).
    split; [now left | vm_compute; reflexivity]. }
  split; [exact Hne|]. split; [exact Hwf|]. split; [exact Hsome|].
  exact (proj1 (proj1 (query_routes_answer StableOrder.sort_desc
                         (Sample.world_of Sample.two_stations)
                         sort_desc_perm Hne Hwf)) Hsome).
Defined.

(** ** The size of the precipitation answer *)

Lemma ordinal_of_injective :
  forall a b : string,
    iso_date a = true -> iso_date b = true ->
    ordinal_of a = ordinal_of b -> a = b.
Proof.
  intros a b Ha Hb Heq.
  destruct (iso_date_parsed a Ha) as [ta [Hpa [_ [_ Hoa]]]].
  destruct (iso_date_parsed b Hb) as [tb [Hpb [_ [_ Hob]]]].
  apply String.compare_eq_iff.
  rewrite (iso_date_compare a b ta tb Ha Hb Hpa Hpb), <- Hoa, <- Hob, Heq.
  apply Z.compare_refl.
Qed.

(** Distinct whole numbers of an interval are no more than it holds. *)
Lemma nodup_in_interval :
  forall (l : list Z) (lo : Z) (n : nat),
    NoDup l ->
    (forall x, In x l -> (lo < x <= lo + Z.of_nat n)%Z) ->
    (List.length l <= n)%nat.
Proof.
  intros l lo n Hnd Hin.
  rewrite <- (length_map (fun x => Z.to_nat (x - lo - 1)) l).
  rewrite <- (length_seq n 0).
  apply NoDup_incl_length.
  - apply NoDup_map_NoDup_ForallPairs; [|exact Hnd].
    intros x y Hx Hy Hxy. specialize (Hin x Hx) as Hx'.
    specialize (Hin y Hy) as Hy'. lia.
  - intros k Hk. apply in_map_iff in Hk. destruct Hk as [x [<- Hx]].
    specialize (Hin x Hx). apply in_seq. lia.
Qed.

(** X17: on a store of well-formed dates the answer of the precipitation
    route never has more than 365 entries, however many stations and
    measurements the store holds. *)
Theorem precipitation_at_most_365_entries :
  forall (w : World) (items : Dict.t json),
    dates_well_formed (engine w) ->
    fst (precipitation w) = Return (Json (JDict items)) ->
    (List.length items <= 365)%nat.
Proof.
  intros w items Hwf Hret.
  destruct (precipitation_returns w _ Hret) as [d [t [cutoff [Hd [Ht [Hc Ha]]]]]].
  injection Ha as ->.
  destruct (last_date_is_latest _ d Hwf Hd) as [Hiso [_ Hlatest]].
  assert (Hord : ordinal_of d = toordinal t)
    by (unfold ordinal_of; now rewrite Ht).
  set (rows := map (fun m => (Measurement.date m,
                              json_of_number (Measurement.prcp m)))
                   (filter (fun m => Text.ge (Measurement.date m)
                                             (bind_text cutoff))
                           (measurements (engine w)))).
  assert (Hkeys : forall k, In k (Dict.keys (Dict.comprehension rows)) ->
                            iso_date k = true
                            /\ (ordinal_of d - 365 < ordinal_of k
                                <= ordinal_of d - 365 + Z.of_nat 365)%Z).
  { intros k Hk. apply (proj1 (keys_comprehension k rows)) in Hk.
    subst rows. rewrite map_map in Hk. cbn [fst] in Hk. apply in_map_iff in Hk.
    destruct Hk as [m [<- Hm]]. apply filter_In in Hm.
    destruct Hm as [Hm Hp]. unfold dates_well_formed in Hwf.
    rewrite Forall_forall in Hwf.
    rewrite (cutoff_filter_window t cutoff 365 _ (Hwf m Hm) Hc) in Hp.
    apply Z.ltb_lt in Hp. specialize (Hlatest m Hm).
    split; [now apply Hwf | lia]. }
  rewrite <- (length_map fst (Dict.comprehension rows)).
  fold (Dict.keys (Dict.comprehension rows)).
  rewrite <- (length_map ordinal_of (Dict.keys (Dict.comprehension rows))).
  apply (nodup_in_interval _ (ordinal_of d - 365)%Z).
  - apply NoDup_map_NoDup_ForallPairs; [|apply nodup_keys_comprehension].
    intros a b Ha Hb Hab.
    exact (ordinal_of_injective a b (proj1 (Hkeys a Ha)) (proj1 (Hkeys b Hb)) Hab).
  - intros x Hx. apply in_map_iff in Hx. destruct Hx as [k [<- Hk]].
    exact (proj2 (Hkeys k Hk)).
Qed.

Lemma precipitation_at_most_365_entries_witness :
  dates_well_formed (engine (Sample.world_of Sample.two_stations))
  /\ (List.length [("2017-08-21", JNull); ("2017-08-22", JNum (5 # 10));
                   ("2017-08-23", JNum (8 # 100))] <= 365)%nat.
Proof.
  assert (Hwf : dates_well_formed (engine (Sample.world_of Sample.two_stations))).
  { unfold dates_well_formed. cbn. repeat constructor. }
  split; [exact Hwf|].
  apply (precipitation_at_most_365_entries
           (Sample.world_of Sample.two_stations) _ Hwf).
  vm_compute. reflexivity.
Defined.

(** ** The grouped query *)

Lemma sum_count_into :
  forall (s : string) (g : list (string * nat)),
    list_sum (map snd (Sql.count_into s g)) = S (list_sum (map snd g)).
Proof.
  intros s g. induction g as [|[k n] r IH]; [reflexivity|].
  cbn [Sql.count_into]. destruct (String.eqb k s).
  - reflexivity.
  - change (list_sum (map snd ((k, n) :: Sql.count_into s r)))
      with (n + list_sum (map snd (Sql.count_into s r)))%nat.
    rewrite IH.
    change (list_sum (map snd ((k, n) :: r)))
      with (n + list_sum (map snd r))%nat.
    lia.
Qed.

Lemma sum_fold_count_into :
  forall (rows : list Measurement.t) (g : list (string * nat)),
    list_sum (map snd (fold_left
                         (fun g m => Sql.count_into (Measurement.station m) g)
                         rows g))
    = (list_sum (map snd g) + List.length rows)%nat.
Proof.
  induction rows as [|m r IH]; intro g; cbn [fold_left List.length]; [lia|].
  rewrite IH, sum_count_into. lia.
Qed.

Lemma list_sum_permutation :
  forall l l' : list nat, Permutation l l' -> list_sum l = list_sum l'.
Proof.
  intros l l' H. induction H; unfold list_sum in *; cbn [fold_right]; lia.
Qed.

(** X18: whatever order the store returns the groups in, the grouped query
    of the tobs route lists every station that has measurements exactly
    once, each with the number of its measurements, and no other station;
    the counts add up to the size of the measurement table. *)
Theorem ordered_stations_counts :
  forall (order_by_count_desc : list (string * nat) -> list (string * nat))
         (db : Store),
    (forall l, Permutation l (order_by_count_desc l)) ->
    NoDup (map fst (ordered_stations_query order_by_count_desc db))
    /\ (forall (k : string) (n : nat),
           In (k, n) (ordered_stations_query order_by_count_desc db)
           <-> n = observation_count k (measurements db) /\ (0 < n)%nat)
    /\ list_sum (map snd (ordered_stations_query order_by_count_desc db))
       = List.length (measurements db).
Proof.
  intros order db Hperm. unfold ordered_stations_query.
  destruct (group_count_spec (measurements db)) as [Hnd [Hcount [Hassoc _]]].
  pose proof (Hperm (Sql.group_count (measurements db))) as Hp.
  split; [|split].
  - eapply Permutation_NoDup; [apply Permutation_map; exact Hp | exact Hnd].
  - intros k n. split.
    + intro Hin. apply Hcount.
      eapply Permutation_in; [apply Permutation_sym; exact Hp | exact Hin].
    + intros [-> Hpos]. eapply Permutation_in; [exact Hp|].
      rewrite <- Hassoc. apply assoc_member. now rewrite Hassoc.
  - rewrite <- (list_sum_permutation _ _ (Permutation_map snd Hp)).
    unfold Sql.group_count. now rewrite sum_fold_count_into.
Qed.

Lemma ordered_stations_counts_witness :
  NoDup (map fst (ordered_stations_query StableOrder.sort_desc
                                         Sample.two_stations))
  /\ In ("USC00519281", 3%nat)
        (ordered_stations_query StableOrder.sort_desc Sample.two_stations)
  /\ list_sum (map snd (ordered_stations_query StableOrder.sort_desc
                                               Sample.two_stations))
     = 5%nat.
Proof.
  destruct (ordered_stations_counts StableOrder.sort_desc Sample.two_stations
              sort_desc_perm) as [H1 [H2 H3]].
  split; [exact H1|]. split; [|exact H3].
  apply H2. split; [reflexivity | lia].
Defined.

(** ** What [strptime] lets through *)

Section StrptimeOutcomes.

Local Open Scope Z_scope.

Lemma in_range_digit :
  forall (lo hi : nat) (c : ascii),
    in_range lo hi c = true ->
    (48 <= lo)%nat ->
    Z.of_nat lo - 48 <= digit c <= Z.of_nat hi - 48.
Proof.
  intros lo hi c H Hlo. unfold in_range in H. apply andb_true_iff in H.
  destruct H as [H1 H2]. apply Nat.leb_le in H1, H2. unfold digit. lia.
Qed.

Ltac range_fact H :=
  let F := fresh "Hrange" in
  pose proof (in_range_digit _ _ _ H ltac:(lia)) as F;
  cbn [Z.of_nat Pos.of_succ_nat Pos.succ] in F.

Ltac take_value H :=
  apply (f_equal (fun o : option (Z * string) =>
                    match o with Some p => fst p | None => 0 end)) in H;
  cbv beta iota delta [fst] in H; subst.

Lemma parse_Y_range :
  forall (s r : string) (y : Z),
    parse_Y s = Some (y, r) -> 0 <= y <= 9999.
Proof.
  intros s r y. unfold parse_Y.
  destruct s as [|a [|b [|c [|d s']]]]; try discriminate.
  destruct (is_digit a) eqn:Ha; [|discriminate].
  destruct (is_digit b) eqn:Hb; [|discriminate].
  destruct (is_digit c) eqn:Hc; [|discriminate].
  destruct (is_digit d) eqn:Hd; [|discriminate].
  cbn [andb]. intro H. injection H as <- _.
  pose proof (digit_bounds _ Ha). pose proof (digit_bounds _ Hb).
  pose proof (digit_bounds _ Hc). pose proof (digit_bounds _ Hd). lia.
Qed.

Lemma parse_m_range :
  forall (s r : string) (m : Z),
    parse_m s = Some (m, r) -> 1 <= m <= 12.
Proof.
  intros s r m. unfold parse_m. destruct s as [|a s']; [discriminate|].
  destruct s' as [|b s''].
  - destruct (in_range 49 57 a) eqn:Ha; [|discriminate].
    intro H. take_value H.
    range_fact Ha. lia.
  - destruct ((a =? "1")%char && in_range 48 50 b) eqn:H1.
    + apply andb_true_iff in H1. destruct H1 as [_ Hb].
      intro H. take_value H.
      range_fact Hb. lia.
    + destruct ((a =? "0")%char && in_range 49 57 b) eqn:H2.
      * apply andb_true_iff in H2. destruct H2 as [_ Hb].
        intro H. take_value H.
        range_fact Hb. lia.
      * destruct (in_range 49 57 a) eqn:Ha; [|discriminate].
        intro H. take_value H.
        range_fact Ha. lia.
Qed.

Lemma parse_d_at_least_1 :
  forall (s r : string) (d : Z),
    parse_d s = Some (d, r) -> 1 <= d.
Proof.
  intros s r d. unfold parse_d. destruct s as [|a s']; [discriminate|].
  destruct s' as [|b s''].
  - destruct (in_range 49 57 a) eqn:Ha; [|discriminate].
    intro H. take_value H.
    range_fact Ha. lia.
  - destruct ((a =? "3")%char && in_range 48 49 b) eqn:H1.
    + apply andb_true_iff in H1. destruct H1 as [_ Hb].
      intro H. take_value H.
      range_fact Hb. lia.
    + destruct (in_range 49 50 a && is_digit b) eqn:H2.
      * apply andb_true_iff in H2. destruct H2 as [Ha Hb].
        intro H. take_value H.
        range_fact Ha. pose proof (digit_bounds _ Hb).
        lia.
      * destruct ((a =? "0")%char && in_range 49 57 b) eqn:H3.
        -- apply andb_true_iff in H3. destruct H3 as [_ Hb].
           intro H. take_value H.
           range_fact Hb. lia.
        -- destruct (in_range 49 57 a) eqn:Ha.
           ++ intro H. take_value H.
              range_fact Ha. lia.
           ++ destruct ((a =? " ")%char && in_range 49 57 b) eqn:H4;
                [|discriminate].
              apply andb_true_iff in H4. destruct H4 as [_ Hb].
              intro H. take_value H.
              range_fact Hb. lia.
Qed.

End StrptimeOutcomes.

(** X19: on a text of ASCII characters, padded or not, [strptime] returns
    valid dates only and raises nothing but ValueError; TypeError is what
    the NULL of an empty table gets. *)
Theorem strptime_outcomes :
  strptime None = Raise TypeError
  /\ (forall (s : string) (t : datetime),
         ascii_text s = true ->
         strptime (Some s) = Return t -> valid_date t)
  /\ (forall (s : string) (e : exn),
         ascii_text s = true ->
         strptime (Some s) = Raise e -> e = ValueError).
Proof.
  split; [reflexivity|]. split.
  - intros s t _. unfold strptime, match_format.
    destruct (parse_Y s) as [[y s1]|] eqn:HY; [|discriminate].
    destruct (expect "-" s1) as [s2|]; [|discriminate].
    destruct (parse_m s2) as [[m s3]|] eqn:HM; [|discriminate].
    destruct (expect "-" s3) as [s4|]; [|discriminate].
    destruct (parse_d s4) as [[d s5]|] eqn:HD; [|discriminate].
    destruct s5; [|discriminate].
    destruct (Z.leb_spec 1 y) as [Hy|Hy]; [|discriminate].
    destruct (Z.leb_spec d (days_in_month y m)) as [Hd|Hd]; [|discriminate].
    cbn [andb]. intro H. injection H as <-.
    pose proof (parse_Y_range _ _ _ HY). pose proof (parse_m_range _ _ _ HM).
    pose proof (parse_d_at_least_1 _ _ _ HD).
    unfold valid_date. cbn [year month day]. lia.
  - intros s e _. apply strptime_text_raises_value_error.
Qed.

Lemma strptime_outcomes_witness :
  ascii_text "2017-8-23" = true
  /\ strptime (Some "2017-8-23") = Return (mk_datetime 2017 8 23)
  /\ valid_date (mk_datetime 2017 8 23)
  /\ ascii_text "2017-08-32" = true
  /\ strptime (Some "2017-08-32") = Raise ValueError.
Proof.
  assert (H1 : ascii_text "2017-8-23" = true) by reflexivity.
  assert (H2 : strptime (Some "2017-8-23") = Return (mk_datetime 2017 8 23))
    by reflexivity.
  assert (H3 : ascii_text "2017-08-32" = true) by reflexivity.
  destruct (strptime (Some "2017-08-32")) as [t|e] eqn:H4;
    [vm_compute in H4; discriminate H4|].
  pose proof (proj2 (proj2 strptime_outcomes) "2017-08-32" e H3 H4) as ->.
  split; [exact H1|]. split; [exact H2|].
  split; [exact (proj1 (proj2 strptime_outcomes) "2017-8-23" _ H1 H2)|].
  split; [exact H3 | reflexivity].
Defined.

(** ** The window of the start/end route *)

(** X20: whatever the two texts are, the start/end query aggregates over
    the measurements dated from [start] to [end], a measurement dated
    [start] or [end] included when [start] does not come after [end]; and
    when some measurement lies in that window the route answers with an
    object that gives [start] and [end] as they were asked, next to [min],
    [avg] and [max], [min] and [max] being the extreme temperatures of the
    window. *)
Theorem start_end_date_window :
  forall (start end_ : string) (w : World),
    start_end_query start end_ (engine w)
    = aggregate_row (in_window start end_ (engine w))
    /\ (forall m : Measurement.t,
          In m (in_window start end_ (engine w))
          <-> In m (measurements (engine w))
              /\ Text.le start (Measurement.date m) = true
              /\ Text.le (Measurement.date m) end_ = true)
    /\ (forall m : Measurement.t,
          In m (measurements (engine w)) ->
          Text.le start end_ = true ->
          Measurement.date m = start \/ Measurement.date m = end_ ->
          In m (in_window start end_ (engine w)))
    /\ (in_window start end_ (engine w) <> [] ->
        exists tmin tavg tmax : Q,
          number_field "min" (fst (start_end_date start end_ w)) = Some tmin
          /\ number_field "avg" (fst (start_end_date start end_ w)) = Some tavg
          /\ number_field "max" (fst (start_end_date start end_ w)) = Some tmax
          /\ field "start" (fst (start_end_date start end_ w))
             = Some (JStr start)
          /\ field "end" (fst (start_end_date start end_ w))
             = Some (JStr end_)
          /\ is_minimum tmin (temperatures (in_window start end_ (engine w)))
          /\ is_maximum tmax (temperatures (in_window start end_ (engine w)))).
Proof.
  intros start end_ w.
  split; [apply start_end_query_window|].
  split; [apply in_window_spec|]. split.
  - intros m Hm Hle [Hd|Hd]; apply in_window_spec; rewrite Hd;
      auto using text_le_refl.
  - intro Hne.
    destruct (summary_route_matching (Start_end start end_) w Hne)
      as [tmin [tmax [Hmin [Hmax Hrun]]]].
    cbn [summary_route matching] in Hrun, Hmin, Hmax.
    exists tmin,
      (round_digits (mean (temperatures (in_window start end_ (engine w)))) 2),
      tmax.
    rewrite Hrun.
    split; [reflexivity|]. split; [reflexivity|]. split; [reflexivity|].
    split; [reflexivity|]. split; [reflexivity|].
    split; [exact Hmin | exact Hmax].
Qed.

Lemma start_end_date_window_witness :
  In (Sample.row "USC00519281" "2017-08-21" (Some (2 # 100)) 76)
     (measurements (engine (Sample.world_of Sample.two_stations)))
  /\ Text.le "2017-08-21" "2017-08-22" = true
  /\ In (Sample.row "USC00519281" "2017-08-21" (Some (2 # 100)) 76)
        (in_window "2017-08-21" "2017-08-22"
                   (engine (Sample.world_of Sample.two_stations)))
  /\ in_window "2017-08-21" "2017-08-22"
               (engine (Sample.world_of Sample.two_stations)) <> []
  /\ field "end" (fst (start_end_date "2017-08-21" "2017-08-22"
                                      (Sample.world_of Sample.two_stations)))
     = Some (JStr "2017-08-22").
Proof.
  assert (Hm : In (Sample.row "USC00519281" "2017-08-21" (Some (2 # 100)) 76)
                  (measurements (engine (Sample.world_of Sample.two_stations))))
    by (left; reflexivity).
  assert (Hle : Text.le "2017-08-21" "2017-08-22" = true) by reflexivity.
  assert (Hne : in_window "2017-08-21" "2017-08-22"
                          (engine (Sample.world_of Sample.two_stations)) <> []).
  { vm_compute. discriminate. }
  destruct (start_end_date_window "2017-08-21" "2017-08-22"
              (Sample.world_of Sample.two_stations))
    as [_ [_ [Hbound Hanswer]]].
  split; [exact Hm|]. split; [exact Hle|].
  split; [exact (Hbound _ Hm Hle (or_introl eq_refl))|].
  split; [exact Hne|].
  destruct (Hanswer Hne) as [tmin [tavg [tmax [_ [_ [_ [_ [Hend _]]]]]]]].
  exact Hend.
Defined.
